(** * Linqkeun Mini ERP API: schema validation and invoice derivation

    A shallow embedding of [main.py] (the FastAPI routes for customers,
    products and invoices) and of the models of [schemas.py] that the
    properties below talk about.

    - [Float]     Python's [float]: IEEE 754 binary64, round to nearest even.
    - [value]     the Python objects a decoded JSON body is made of.
    - [Dict]      insertion ordered dictionaries with string keys.
    - [Py]        exceptions and the builtins [+], [*], [sum], [round].
    - [platform]  what the interpreter, the third-party libraries and the
                  missing [database] module contribute.
    - [Pydantic]  field validators and the list of errors they report.
    - [Schemas]   models of [schemas.py].
    - [Main]      request models, handlers and routes of [main.py]. *)

From Stdlib Require Import ZArith List Ascii String Bool Lia.
From Stdlib Require Import Floats.SpecFloat.
Import ListNotations.

Local Open Scope string_scope.
Local Open Scope list_scope.

(** ** Python floats *)

Module Float.

(** A Python [float] is a binary64 number.  [spec_float] is the
    axiom-free specification of IEEE 754 arithmetic of the standard
    library, instantiated below at 53 bits of precision. *)
Definition float : Type := spec_float.

Definition prec : Z := 53.
Definition emax : Z := 1024.

Definition add : float -> float -> float := SFadd prec emax.
Definition sub : float -> float -> float := SFsub prec emax.
Definition mul : float -> float -> float := SFmul prec emax.
Definition div : float -> float -> float := SFdiv prec emax.
Definition abs : float -> float := SFabs.

(** Comparisons; all three are [false] as soon as one side is NaN. *)
Definition eqb : float -> float -> bool := SFeqb.
Definition ltb : float -> float -> bool := SFltb.
Definition leb : float -> float -> bool := SFleb.

Definition is_finite (x : float) : bool :=
  match x with
  | S754_zero _ | S754_finite _ _ _ => true
  | S754_infinity _ | S754_nan => false
  end.

(** [float(n)] for an integer [n]: the nearest double, ties to even
    (an infinity when [n] is out of range). *)
Definition of_Z (n : Z) : float := binary_normalize prec emax n 0 false.

(** The decimal literal [n]e-[k], for instance [of_decimal 11 2] for
    [0.11].  Numerator and power of ten are exact doubles for the
    literals of this program, so the quotient is the correctly rounded
    value a Python literal denotes. *)
Definition of_decimal (n : Z) (k : nat) : float :=
  div (of_Z n) (of_Z (10 ^ Z.of_nat k)).

Definition zero : float := of_Z 0.
Definition one : float := of_Z 1.

(** [num / den] rounded to the nearest integer, ties to even. *)
Definition half_even (num den : Z) : Z :=
  let q := (num / den)%Z in
  match (2 * (num mod den) ?= den)%Z with
  | Lt => q
  | Eq => if Z.even q then q else (q + 1)%Z
  | Gt => (q + 1)%Z
  end.

(** [round(x, 2)] on a float.  CPython prints the exact binary value of
    [x] with two digits after the point, correctly rounded with ties to
    even, and reads that decimal string back as the nearest double;
    NaN and the infinities round to themselves and the sign of a zero
    result is the sign of [x].  With two digits the result always fits
    a double, so the interpreter's [OverflowError] branch is not
    reachable and is left out. *)
Definition round2 (x : float) : float :=
  match x with
  | S754_finite s m e =>
      let hundredths :=
        match e with
        | Zneg p => half_even (Zpos m * 100) (2 ^ Zpos p)
        | _ => (Zpos m * 100 * 2 ^ e)%Z
        end in
      match hundredths with
      | Zpos n => SFdiv prec emax (S754_finite s n 0) (S754_finite false 100 0)
      | _ => S754_zero s
      end
  | _ => x
  end.

End Float.

Abbreviation float := Float.float.

(** ** Python values *)

(** [datetime.utcnow()] reads the clock; an instant is kept as the
    number of microseconds since the epoch. *)
Definition datetime : Type := Z.

(** The objects that occur in a decoded JSON body and in the documents
    the handlers build. *)
#[warnings="-register-all"]
Inductive value : Type :=
| VNone
| VBool (b : bool)
| VInt (n : Z)
| VFloat (x : float)
| VStr (s : string)
| VDatetime (t : datetime)
| VList (items : list value)
| VDict (entries : list (string * value)).

Definition dict : Type := list (string * value).

Module Dict.

(** [d.get(k)] *)
Fixpoint get (k : string) (d : dict) : option value :=
  match d with
  | [] => None
  | (k', v) :: rest => if String.eqb k' k then Some v else get k rest
  end.

(** [d[k] = v]: an existing key keeps its position, a new key goes
    last. *)
Fixpoint set (k : string) (v : value) (d : dict) : dict :=
  match d with
  | [] => [(k, v)]
  | (k', v') :: rest =>
      if String.eqb k' k then (k', v) :: rest else (k', v') :: set k v rest
  end.

(** [{**d, **extra}] *)
Definition merge (d extra : dict) : dict :=
  fold_left (fun acc kv => set (fst kv) (snd kv) acc) extra d.

Definition keys (d : dict) : list string := map fst d.

End Dict.

(** ** Exceptions and builtins *)

Module Py.

Inductive exception : Type :=
| KeyError (k : string)
| TypeError
| AttributeError
| OverflowError
| ValueError
| StorageError.

Inductive result (A : Type) : Type :=
| Ok (a : A)
| Raise (e : exception).
Arguments Ok {A} a.
Arguments Raise {A} e.

Definition bind {A B} (r : result A) (k : A -> result B) : result B :=
  match r with
  | Ok a => k a
  | Raise e => Raise e
  end.

Fixpoint mapM {A B} (f : A -> result B) (l : list A) : result (list B) :=
  match l with
  | [] => Ok []
  | a :: rest =>
      bind (f a) (fun b => bind (mapM f rest) (fun bs => Ok (b :: bs)))
  end.

(** [d[k]] *)
Definition getitem (d : value) (k : string) : result value :=
  match d with
  | VDict entries =>
      match Dict.get k entries with
      | Some v => Ok v
      | None => Raise (KeyError k)
      end
  | _ => Raise TypeError
  end.

(** [d.get(k, default)] *)
Definition get (d : value) (k : string) (default : value) : result value :=
  match d with
  | VDict entries =>
      match Dict.get k entries with
      | Some v => Ok v
      | None => Ok default
      end
  | _ => Raise AttributeError
  end.

(** [for i in v]: the elements of a list, the keys of a dictionary;
    numbers, [None] and instants are not iterable. *)
Definition iter (v : value) : result (list value) :=
  match v with
  | VList items => Ok items
  | VDict entries => Ok (map (fun kv => VStr (fst kv)) entries)
  | VStr s => Ok (map (fun c => VStr (String c EmptyString)) (list_ascii_of_string s))
  | _ => Raise TypeError
  end.

(** The numeric tower: [bool] is an [int], mixed arithmetic converts
    the [int] operand with [float(n)]. *)
Inductive number : Type :=
| NInt (n : Z)
| NFloat (x : float).

Definition as_number (v : value) : option number :=
  match v with
  | VBool b => Some (NInt (if b then 1 else 0))
  | VInt n => Some (NInt n)
  | VFloat x => Some (NFloat x)
  | _ => None
  end.

Definition to_float (n : Z) : result float :=
  let x := Float.of_Z n in
  if Float.is_finite x then Ok x else Raise OverflowError.

Definition arith (opz : Z -> Z -> Z) (opf : float -> float -> float)
    (a b : value) : result value :=
  match as_number a, as_number b with
  | Some (NInt m), Some (NInt n) => Ok (VInt (opz m n))
  | Some (NInt m), Some (NFloat y) =>
      bind (to_float m) (fun x => Ok (VFloat (opf x y)))
  | Some (NFloat x), Some (NInt n) =>
      bind (to_float n) (fun y => Ok (VFloat (opf x y)))
  | Some (NFloat x), Some (NFloat y) => Ok (VFloat (opf x y))
  | _, _ => Raise TypeError
  end.

(** [a + b] and [a * b] on numbers. *)
Definition add : value -> value -> result value := arith Z.add Float.add.
Definition mul : value -> value -> result value := arith Z.mul Float.mul.

(** [round(v, 2)]: an [int] is returned unchanged. *)
Definition round2 (v : value) : result value :=
  match as_number v with
  | Some (NInt n) => Ok (VInt n)
  | Some (NFloat x) => Ok (VFloat (Float.round2 x))
  | None => Raise TypeError
  end.

(** What [json.dumps(content, allow_nan=False)] renders, which is how a
    returned dictionary becomes the body of the answer: every float in
    it is finite.  (Instants are turned into strings before that.)  On
    anything else the call raises a [ValueError]. *)
Fixpoint json_compliant (v : value) : bool :=
  match v with
  | VFloat x => Float.is_finite x
  | VList items => forallb json_compliant items
  | VDict entries => forallb (fun kv => json_compliant (snd kv)) entries
  | _ => true
  end.

(** The double a number stands for. *)
Definition number_value (v : value) : option float :=
  match v with
  | VInt n => Some (Float.of_Z n)
  | VFloat x => Some x
  | _ => None
  end.

Fixpoint all_floats (l : list value) : option (list float) :=
  match l with
  | [] => Some []
  | VFloat x :: rest =>
      match all_floats rest with
      | Some xs => Some (x :: xs)
      | None => None
      end
  | _ :: _ => None
  end.

(** The two accumulation loops [sum] has had for floats: plain left to
    right addition (CPython up to 3.11) and Neumaier's compensated
    summation (CPython 3.12 and later), both started from the value
    accumulated so far. *)
Definition sum_plain (acc : float) (xs : list float) : float :=
  fold_left Float.add xs acc.

Fixpoint neumaier (f_result c : float) (xs : list float) : float :=
  match xs with
  | [] =>
      if negb (Float.eqb c Float.zero) && Float.is_finite c
      then Float.add f_result c else f_result
  | x :: rest =>
      let t := Float.add f_result x in
      let c' :=
        if Float.leb (Float.abs x) (Float.abs f_result)
        then Float.add c (Float.add (Float.sub f_result t) x)
        else Float.add c (Float.add (Float.sub x t) f_result) in
      neumaier t c' rest
  end.

Definition sum_neumaier (acc : float) (xs : list float) : float :=
  neumaier acc Float.zero xs.

End Py.

Notation "x <- c1 ;; c2" := (Py.bind c1 (fun x => c2))
  (at level 61, c1 at next level, right associativity).

(** ** The platform *)

(** What the code relies on but does not define: two third-party library
    functions, the accumulation loop of the interpreter's [sum], and the
    [database] module, which is imported by [main.py] but is not among
    the sources.  Per the storage interface of the specification,
    [insert_one(collection, document) -> id], [create_document] either
    raises or returns the identifier the store assigned; it works on its
    own copy of the document, so the caller's dictionary is left as it
    was. *)
Record platform : Type := {
  (** pydantic's lax conversion to [float] of an input that is neither a
      [float] nor an [int] in range (numeric strings, booleans). *)
  lax_float : value -> option float;
  (** [email_validator]: the normalised address, or [None] when the
      string is not a syntactically valid address. *)
  validate_email : string -> option string;
  (** The loop [sum] runs once its accumulator is a float. *)
  float_sum : float -> list float -> float;
  store : Type;
  create_document : string -> dict -> store -> Py.result string * store
}.

Module Pydantic.

Inductive loc_item : Type :=
| Key (k : string)
| Idx (i : nat).

Inductive error_type : Type :=
| missing
| string_type
| float_type
| list_type
| model_type
| literal_error
| value_error
| greater_than
| greater_than_equal
| less_than_equal.

(** One entry of a [ValidationError]: where and what. *)
Record error : Type := { loc : list loc_item; etype : error_type }.

Inductive validation (A : Type) : Type :=
| Valid (a : A)
| Invalid (errs : list error).
Arguments Valid {A} a.
Arguments Invalid {A} errs.

Definition fail {A} (e : error_type) : validation A :=
  Invalid [ {| loc := []; etype := e |} ].

Definition errors {A} (r : validation A) : list error :=
  match r with
  | Valid _ => []
  | Invalid errs => errs
  end.

(** Errors of a nested value are reported under the path to it. *)
Definition at_loc {A} (l : loc_item) (r : validation A) : validation A :=
  match r with
  | Valid a => Valid a
  | Invalid errs =>
      Invalid (map (fun e => {| loc := l :: loc e; etype := etype e |}) errs)
  end.

(** Every field is validated; the errors of all of them are
    collected. *)
Definition ap {A B} (f : validation (A -> B)) (x : validation A)
    : validation B :=
  match f, x with
  | Valid g, Valid a => Valid (g a)
  | Valid _, Invalid errs => Invalid errs
  | Invalid errs, Valid _ => Invalid errs
  | Invalid errs1, Invalid errs2 => Invalid (errs1 ++ errs2)
  end.

Definition validator (A : Type) : Type := value -> validation A.

(** A field without default. *)
Definition required {A} (k : string) (f : validator A) (d : dict)
    : validation A :=
  match Dict.get k d with
  | Some v => at_loc (Key k) (f v)
  | None => Invalid [ {| loc := [Key k]; etype := missing |} ]
  end.

(** A field with a default or a default factory: the default is taken
    as it is when the key is absent. *)
Definition with_default {A} (k : string) (f : validator A) (default : A)
    (d : dict) : validation A :=
  match Dict.get k d with
  | Some v => at_loc (Key k) (f v)
  | None => Valid default
  end.

(** [str] *)
Definition str : validator string :=
  fun v => match v with
           | VStr s => Valid s
           | _ => fail string_type
           end.

(** What a [float] field makes of an input. *)
Definition coerce_float (P : platform) (v : value) : option float :=
  match v with
  | VFloat x => Some x
  | VInt n =>
      if Float.is_finite (Float.of_Z n) then Some (Float.of_Z n)
      else lax_float P v
  | _ => lax_float P v
  end.

(** [float] *)
Definition float_ (P : platform) : validator float :=
  fun v => match coerce_float P v with
           | Some x => Valid x
           | None => fail float_type
           end.

Definition check {A} (ok : A -> bool) (e : error_type) (f : validator A)
    : validator A :=
  fun v => match f v with
           | Valid a => if ok a then Valid a else fail e
           | Invalid errs => Invalid errs
           end.

(** [Field(gt=b)], [Field(ge=b)], [Field(le=b)]; a NaN passes none. *)
Definition gt (b : float) : validator float -> validator float :=
  check (fun x => Float.ltb b x) greater_than.
Definition ge (b : float) : validator float -> validator float :=
  check (fun x => Float.leb b x) greater_than_equal.
Definition le (b : float) : validator float -> validator float :=
  check (fun x => Float.leb x b) less_than_equal.

(** [Optional[T]] *)
Definition optional {A} (f : validator A) : validator (option A) :=
  fun v => match v with
           | VNone => Valid None
           | _ => ap (Valid Some) (f v)
           end.

(** [Literal[...]] over strings. *)
Definition literal (allowed : list string) : validator string :=
  fun v => match v with
           | VStr s =>
               if existsb (String.eqb s) allowed then Valid s
               else fail literal_error
           | _ => fail literal_error
           end.

(** [EmailStr] *)
Definition email_str (P : platform) : validator string :=
  fun v => match v with
           | VStr s =>
               match validate_email P s with
               | Some s' => Valid s'
               | None => fail value_error
               end
           | _ => fail string_type
           end.

Fixpoint list_items {A} (f : validator A) (i : nat) (vs : list value)
    : validation (list A) :=
  match vs with
  | [] => Valid []
  | v :: rest =>
      ap (ap (Valid cons) (at_loc (Idx i) (f v))) (list_items f (S i) rest)
  end.

(** [List[T]] *)
Definition list_of {A} (f : validator A) : validator (list A) :=
  fun v => match v with
           | VList vs => list_items f 0 vs
           | _ => fail list_type
           end.

(** A model is built from a dictionary; keys that are not fields of
    the model are ignored. *)
Definition model {A} (fields : dict -> validation A) : validator A :=
  fun v => match v with
           | VDict d => fields d
           | _ => fail model_type
           end.

Definition dump_option {A} (f : A -> value) (o : option A) : value :=
  match o with
  | Some a => f a
  | None => VNone
  end.

End Pydantic.

Notation "f <*> x" := (Pydantic.ap f x) (at level 50, left associativity).

(** ** schemas.py *)

Module Schemas.
Import Pydantic.

Module Role.
Record t : Type := {
  name : string;
  permissions : list string
}.

Definition names : list string :=
  ["owner"; "admin"; "manager"; "sales"; "warehouse"; "procurement";
   "finance"; "hr"; "employee"].

Definition fields (d : dict) : validation t :=
  Valid Build_t
    <*> required "name" (literal names) d
    <*> with_default "permissions" (list_of str) [] d.

Definition validate : validator t := model fields.
End Role.

Module Customer.
Record t : Type := {
  name : string;
  email : option string;
  phone : option string;
  company : option string;
  address : option string;
  tags : list string;
  source : option string;
  assigned_to : option string
}.

Definition fields (P : platform) (d : dict) : validation t :=
  Valid Build_t
    <*> required "name" str d
    <*> with_default "email" (optional (email_str P)) None d
    <*> with_default "phone" (optional str) None d
    <*> with_default "company" (optional str) None d
    <*> with_default "address" (optional str) None d
    <*> with_default "tags" (list_of str) [] d
    <*> with_default "source" (optional str) None d
    <*> with_default "assigned_to" (optional str) None d.

Definition validate (P : platform) : validator t := model (fields P).
End Customer.

Module InvoiceItem.
Record t : Type := {
  product_id : string;
  name : string;
  quantity : float;
  price : float;
  tax_rate : float
}.

Definition fields (P : platform) (d : dict) : validation t :=
  Valid Build_t
    <*> required "product_id" str d
    <*> required "name" str d
    <*> required "quantity" (gt Float.zero (float_ P)) d
    <*> required "price" (ge Float.zero (float_ P)) d
    <*> with_default "tax_rate" (float_ P) (Float.of_decimal 11 2) d.

Definition validate (P : platform) : validator t := model (fields P).
End InvoiceItem.

Module Supplier.
Record t : Type := {
  name : string;
  email : option string;
  phone : option string;
  address : option string;
  rating : option float
}.

Definition fields (P : platform) (d : dict) : validation t :=
  Valid Build_t
    <*> required "name" str d
    <*> with_default "email" (optional (email_str P)) None d
    <*> with_default "phone" (optional str) None d
    <*> with_default "address" (optional str) None d
    <*> with_default "rating"
          (optional (ge Float.zero (le (Float.of_Z 5) (float_ P)))) None d.

Definition validate (P : platform) : validator t := model (fields P).
End Supplier.

Module JournalLine.
Record t : Type := {
  account_code : string;
  debit : float;
  credit : float;
  memo : option string
}.

Definition fields (P : platform) (d : dict) : validation t :=
  Valid Build_t
    <*> required "account_code" str d
    <*> with_default "debit" (float_ P) Float.zero d
    <*> with_default "credit" (float_ P) Float.zero d
    <*> with_default "memo" (optional str) None d.

Definition validate (P : platform) : validator t := model (fields P).
End JournalLine.

End Schemas.

(** ** main.py *)

Module Main.
Import Pydantic.

Module CreateCustomer.
Record t : Type := {
  name : string;
  email : option string;
  phone : option string
}.

Definition fields (d : dict) : validation t :=
  Valid Build_t
    <*> required "name" str d
    <*> with_default "email" (optional str) None d
    <*> with_default "phone" (optional str) None d.

Definition validate : validator t := model fields.

Definition model_dump (m : t) : dict :=
  [("name", VStr (name m));
   ("email", dump_option VStr (email m));
   ("phone", dump_option VStr (phone m))].
End CreateCustomer.

Module CreateProduct.
Record t : Type := {
  sku : string;
  name : string;
  price : float
}.

Definition fields (P : platform) (d : dict) : validation t :=
  Valid Build_t
    <*> required "sku" str d
    <*> required "name" str d
    <*> required "price" (float_ P) d.

Definition validate (P : platform) : validator t := model (fields P).

Definition model_dump (m : t) : dict :=
  [("sku", VStr (sku m));
   ("name", VStr (name m));
   ("price", VFloat (price m))].
End CreateProduct.

Module InvoiceItem.
Record t : Type := {
  product_id : string;
  name : string;
  quantity : float;
  price : float;
  tax_rate : float
}.

Definition fields (P : platform) (d : dict) : validation t :=
  Valid Build_t
    <*> required "product_id" str d
    <*> required "name" str d
    <*> required "quantity" (float_ P) d
    <*> required "price" (float_ P) d
    <*> with_default "tax_rate" (float_ P) (Float.of_decimal 11 2) d.

Definition validate (P : platform) : validator t := model (fields P).

Definition model_dump (m : t) : dict :=
  [("product_id", VStr (product_id m));
   ("name", VStr (name m));
   ("quantity", VFloat (quantity m));
   ("price", VFloat (price m));
   ("tax_rate", VFloat (tax_rate m))].
End InvoiceItem.

Module CreateInvoice.
Record t : Type := {
  customer_id : string;
  items : list InvoiceItem.t;
  currency : string
}.

Definition fields (P : platform) (d : dict) : validation t :=
  Valid Build_t
    <*> required "customer_id" str d
    <*> required "items" (list_of (InvoiceItem.validate P)) d
    <*> with_default "currency" str "IDR" d.

Definition validate (P : platform) : validator t := model (fields P).

Definition model_dump (m : t) : dict :=
  [("customer_id", VStr (customer_id m));
   ("items", VList (map (fun i => VDict (InvoiceItem.model_dump i)) (items m)));
   ("currency", VStr (currency m))].
End CreateInvoice.

(** What a route answers: the handler's document, the validation
    errors of the body (the handler is then not entered), or the
    exception raised by the handler or by the rendering of its
    document. *)
Inductive response : Type :=
| R200 (doc : dict)
| R422 (errs : list error)
| R500 (e : Py.exception).

Section Routes.
Variable P : platform.

(** [@app.post(path)] around a handler with one body parameter: the
    decoded body is validated against the parameter's model first, and
    the dictionary the handler returns is rendered as JSON afterwards.
    When it holds a NaN or an infinity the rendering raises, after the
    handler has done its work, and the answer is a server error. *)
Definition route {A} (validate : validator A)
    (handler : A -> store P -> Py.result dict * store P)
    (body : value) (s : store P) : response * store P :=
  match validate body with
  | Invalid errs => (R422 errs, s)
  | Valid payload =>
      match handler payload s with
      | (Py.Ok doc, s') =>
          if Py.json_compliant (VDict doc) then (R200 doc, s')
          else (R500 Py.ValueError, s')
      | (Py.Raise e, s') => (R500 e, s')
      end
  end.

Definition create_customer (now : datetime) (payload : CreateCustomer.t)
    (s : store P) : Py.result dict * store P :=
  let customer := CreateCustomer.model_dump payload in
  let customer := Dict.set "created_at" (VDatetime now) customer in
  match create_document P "customer" customer s with
  | (Py.Ok cid, s') => (Py.Ok (Dict.merge [("id", VStr cid)] customer), s')
  | (Py.Raise e, s') => (Py.Raise e, s')
  end.

Definition create_product (now : datetime) (payload : CreateProduct.t)
    (s : store P) : Py.result dict * store P :=
  let data := CreateProduct.model_dump payload in
  let data := Dict.set "created_at" (VDatetime now) data in
  match create_document P "product" data s with
  | (Py.Ok pid, s') => (Py.Ok (Dict.merge [("id", VStr pid)] data), s')
  | (Py.Raise e, s') => (Py.Raise e, s')
  end.

(** [i["quantity"]*i["price"]*(1+i.get("tax_rate",0))] *)
Definition line_amount (i : value) : Py.result value :=
  q <- Py.getitem i "quantity" ;;
  p <- Py.getitem i "price" ;;
  qp <- Py.mul q p ;;
  t <- Py.get i "tax_rate" (VInt 0) ;;
  r <- Py.add (VInt 1) t ;;
  Py.mul qp r.

(** [sum(terms)]: the start value is the integer 0, to which the
    first term is added; once the accumulator is a float and only
    floats follow, the interpreter's float loop takes over.  Other
    mixes are added one by one. *)
Definition py_sum (terms : list value) : Py.result value :=
  match terms with
  | [] => Py.Ok (VInt 0)
  | first :: rest =>
      acc <- Py.add (VInt 0) first ;;
      match acc, Py.all_floats rest with
      | VFloat f, Some xs => Py.Ok (VFloat (float_sum P f xs))
      | _, _ =>
          fold_left (fun r v => a <- r ;; Py.add a v) rest (Py.Ok acc)
      end
  end.

(** Lines 144 and 145 of [main.py]: the sum over [inv["items"]],
    then [round(total, 2)].  The terms of the generator are computed
    before they are added, which gives the same total whenever one
    is produced. *)
Definition invoice_total (inv : dict) : Py.result value :=
  items <- Py.getitem (VDict inv) "items" ;;
  lines <- Py.iter items ;;
  terms <- Py.mapM line_amount lines ;;
  total <- py_sum terms ;;
  Py.round2 total.

Definition create_invoice (now : datetime) (payload : CreateInvoice.t)
    (s : store P) : Py.result dict * store P :=
  let inv := CreateInvoice.model_dump payload in
  let inv := Dict.set "status" (VStr "draft") inv in
  let inv := Dict.set "created_at" (VDatetime now) inv in
  match invoice_total inv with
  | Py.Raise e => (Py.Raise e, s)
  | Py.Ok total =>
      let inv := Dict.set "total" total inv in
      match create_document P "invoice" inv s with
      | (Py.Ok inv_id, s') =>
          (Py.Ok (Dict.merge [("id", VStr inv_id)] inv), s')
      | (Py.Raise e, s') => (Py.Raise e, s')
      end
  end.

(** [POST /customers], [POST /products], [POST /invoices] *)
Definition post_customers (now : datetime) :=
  route CreateCustomer.validate (create_customer now).
Definition post_products (now : datetime) :=
  route (CreateProduct.validate P) (create_product now).
Definition post_invoices (now : datetime) :=
  route (CreateInvoice.validate P) (create_invoice now).

End Routes.

End Main.

(** ** The total as the specification words it *)

Module Spec.

(** quantity × price × (1 + tax_rate) of one line. *)
Definition line_total (i : Main.InvoiceItem.t) : float :=
  Float.mul
    (Float.mul (Main.InvoiceItem.quantity i) (Main.InvoiceItem.price i))
    (Float.add Float.one (Main.InvoiceItem.tax_rate i)).

(** Σ over a list of floats, from zero, with the platform's float
    loop. *)
Definition sum (P : platform) (xs : list float) : float :=
  match xs with
  | [] => Float.zero
  | x :: rest => float_sum P (Float.add Float.zero x) rest
  end.

(** total = round(Σ over items of quantity × price × (1 + tax_rate), 2) *)
Definition invoice_total (P : platform) (items : list Main.InvoiceItem.t)
    : float :=
  Float.round2 (sum P (map line_total items)).

End Spec.

(** ** Platforms to run the code on *)

(** An in-memory document store, to run the routes on. *)
Module MemoryStore.

Record document : Type := {
  collection : string;
  id : string;
  data : dict
}.

Definition t : Type := list document.

Definition digit (n : nat) : string :=
  String (Ascii.ascii_of_nat (48 + n)) EmptyString.

Fixpoint decimal (fuel n : nat) : string :=
  match fuel with
  | O => digit (n mod 10)
  | S fuel' =>
      if (n <? 10)%nat then digit n
      else String.append (decimal fuel' (n / 10)) (digit (n mod 10))
  end.

Definition object_id (n : nat) : string := decimal n n.

(** Modelled from the spec: [create_document] of [database.py], which is
    not among the sources.  The specification describes storage as
    [insert_one(collection, document) -> id], one immutable document per
    call, with opaque string identifiers that are never reused: the
    document is appended as it is and gets the next number as its
    identifier. *)
Definition create_document (coll : string) (doc : dict) (s : t)
    : Py.result string * t :=
  let oid := object_id (List.length s) in
  (Py.Ok oid, s ++ [ {| collection := coll; id := oid; data := doc |} ]).

(** Modelled from the spec: the same call when persistence fails, which
    the specification surfaces as a storage error without a write. *)
Definition unavailable (coll : string) (doc : dict) (s : t)
    : Py.result string * t :=
  (Py.Raise Py.StorageError, s).

End MemoryStore.

(** A stand-in for [email_validator] that only asks for an at sign. *)
Definition has_at_sign (s : string) : option string :=
  if existsb (Ascii.eqb "@"%char) (list_ascii_of_string s) then Some s else None.

Definition cpython_3_11 : platform := {|
  lax_float := fun _ => None;
  validate_email := has_at_sign;
  float_sum := Py.sum_plain;
  store := MemoryStore.t;
  create_document := MemoryStore.create_document
|}.

Definition cpython_3_12 : platform := {|
  lax_float := fun _ => None;
  validate_email := has_at_sign;
  float_sum := Py.sum_neumaier;
  store := MemoryStore.t;
  create_document := MemoryStore.create_document
|}.

Definition offline : platform := {|
  lax_float := fun _ => None;
  validate_email := has_at_sign;
  float_sum := Py.sum_plain;
  store := MemoryStore.t;
  create_document := MemoryStore.unavailable
|}.

(** The request of the specification's scenario. *)
Definition widget_invoice : value :=
  VDict [("customer_id", VStr "C1");
         ("items", VList [VDict [("product_id", VStr "P1");
                                 ("name", VStr "Widget");
                                 ("quantity", VInt 2);
                                 ("price", VFloat (Float.of_decimal 1000 1));
                                 ("tax_rate", VFloat (Float.of_decimal 11 2))]])].

(** The same request with the tax rate of its line left out. *)
Definition widget_invoice_no_rate : value :=
  VDict [("customer_id", VStr "C1");
         ("items", VList [VDict [("product_id", VStr "P1");
                                 ("name", VStr "Widget");
                                 ("quantity", VInt 2);
                                 ("price", VFloat (Float.of_decimal 1000 1))]])].

(** An item in which an absent [tax_rate] is written out as [0.11]. *)
Definition with_explicit_tax_rate (item : value) : value :=
  match item with
  | VDict d =>
      match Dict.get "tax_rate" d with
      | None => VDict (Dict.set "tax_rate" (VFloat (Float.of_decimal 11 2)) d)
      | Some _ => item
      end
  | _ => item
  end.

(** The line [v] of a body and the validated item [i] hold the same
    numbers: the quantity and the price are the line's, converted, and
    the rate is the line's own, 0.11 when the line has none. *)
Definition line_matches (P : platform) (v : value) (i : Main.InvoiceItem.t)
    : Prop :=
  exists d,
    v = VDict d /\
    (exists q, Dict.get "quantity" d = Some q /\
               Pydantic.coerce_float P q = Some (Main.InvoiceItem.quantity i)) /\
    (exists p, Dict.get "price" d = Some p /\
               Pydantic.coerce_float P p = Some (Main.InvoiceItem.price i)) /\
    match Dict.get "tax_rate" d with
    | Some r => Pydantic.coerce_float P r = Some (Main.InvoiceItem.tax_rate i)
    | None => Main.InvoiceItem.tax_rate i = Float.of_decimal 11 2
    end.

(** Two lines of 1 × 100, taxed at 0.5 and at 0, under a document that
    names a rate of its own. *)
Definition two_rate_lines : list value :=
  [VDict [("product_id", VStr "P1"); ("name", VStr "Widget");
          ("quantity", VInt 1); ("price", VInt 100);
          ("tax_rate", VFloat (Float.of_decimal 5 1))];
   VDict [("product_id", VStr "P2"); ("name", VStr "Bolt");
          ("quantity", VInt 1); ("price", VInt 100);
          ("tax_rate", VInt 0)]].

Definition two_rate_invoice : dict :=
  [("customer_id", VStr "C1"); ("items", VList two_rate_lines);
   ("tax_rate", VFloat (Float.of_decimal 11 2))].

Definition overflowing_invoice : value :=
  VDict [("customer_id", VStr "C1");
         ("items", VList [VDict [("product_id", VStr "P1");
                                 ("name", VStr "Widget");
                                 ("quantity", VFloat (Float.of_Z (10 ^ 308)));
                                 ("price", VInt 10)]])].

(** A body whose list of items is rewritten item by item. *)
Definition map_items (f : value -> value) (body : value) : value :=
  match body with
  | VDict d =>
      match Dict.get "items" d with
      | Some (VList its) => VDict (Dict.set "items" (VList (map f its)) d)
      | _ => body
      end
  | _ => body
  end.

(** The value [create_invoice] stores under ["total"]: the integer 0 of
    an empty sum, a rounded float otherwise. *)
Definition total_value (P : platform) (items : list Main.InvoiceItem.t)
    : value :=
  match items with
  | [] => VInt 0
  | _ :: _ => VFloat (Spec.invoice_total P items)
  end.

Definition dump_items (items : list Main.InvoiceItem.t) : value :=
  VList (map (fun i => VDict (Main.InvoiceItem.model_dump i)) items).

(** Running the scenario on an empty store, at some instant. *)
Definition widget_run : Main.response * store cpython_3_12 :=
  Main.post_invoices cpython_3_12 1700%Z widget_invoice [].

Definition response_doc (r : Main.response) : dict :=
  match r with
  | Main.R200 doc => doc
  | _ => []
  end.

(** Requests the properties are tried on. *)
Definition empty_invoice : value :=
  VDict [("customer_id", VStr "C1"); ("items", VList [])].

Definition ann_malformed_email : value :=
  VDict [("name", VStr "Ann"); ("email", VStr "not-an-email")].

Definition negative_debit_line : value :=
  VDict [("account_code", VStr "1000");
         ("debit", VFloat (Float.of_decimal (-5) 0))].

Definition negative_debit_record : Schemas.JournalLine.t :=
  {| Schemas.JournalLine.account_code := "1000";
     Schemas.JournalLine.debit := Float.of_decimal (-5) 0;
     Schemas.JournalLine.credit := Float.zero;
     Schemas.JournalLine.memo := None |}.

(** A route turned the request down and left the store as it was. *)
Definition rejected_unpersisted {P : platform}
    (answer : Main.response * store P) (s : store P) : Prop :=
  exists errs, answer = (Main.R422 errs, s).

Definition ann_with_company : dict :=
  [("name", VStr "Ann"); ("company", VStr "X")].

(** A returned document that has every submitted field with its value
    and, beyond the submitted fields, exactly "id" and "created_at". *)
Definition echoes_payload (submitted doc : dict) : Prop :=
  (forall k v, Dict.get k submitted = Some v -> Dict.get k doc = Some v) /\
  (forall k, In k (Dict.keys doc) -> Dict.get k submitted = None ->
             k = "id" \/ k = "created_at") /\
  In "id" (Dict.keys doc) /\ In "created_at" (Dict.keys doc).

(** ** Further models of schemas.py *)

(** Models declared above [JournalEntry].  That class names a field
    [date] after the type it is annotated with, on which the library
    refuses to build the class, so what follows it in [schemas.py] is
    never defined. *)

Module Entities.
Import Pydantic.

Module Organization.
Record t : Type := {
  name : string;
  country : option string;
  currency : string
}.

Definition fields (d : dict) : validation t :=
  Valid Build_t
    <*> required "name" str d
    <*> with_default "country" (optional str) (Some "ID") d
    <*> with_default "currency" str "IDR" d.

Definition validate : validator t := model fields.
End Organization.

Module QuotationItem.
Record t : Type := {
  product_id : string;
  name : string;
  quantity : float;
  price : float;
  discount : float
}.

(** [discount: float = 0]: the default is the integer 0, kept here as
    the double it equals. *)
Definition fields (P : platform) (d : dict) : validation t :=
  Valid Build_t
    <*> required "product_id" str d
    <*> required "name" str d
    <*> required "quantity" (gt Float.zero (float_ P)) d
    <*> required "price" (ge Float.zero (float_ P)) d
    <*> with_default "discount" (float_ P) Float.zero d.

Definition validate (P : platform) : validator t := model (fields P).
End QuotationItem.

Module PurchaseItem.
Record t : Type := {
  product_id : string;
  name : string;
  quantity : float;
  price : float
}.

Definition fields (P : platform) (d : dict) : validation t :=
  Valid Build_t
    <*> required "product_id" str d
    <*> required "name" str d
    <*> required "quantity" (float_ P) d
    <*> required "price" (float_ P) d.

Definition validate (P : platform) : validator t := model (fields P).
End PurchaseItem.

Module PurchaseOrder.
Record t : Type := {
  number : option string;
  supplier_id : string;
  status : string;
  items : list PurchaseItem.t;
  notes : option string
}.

Definition statuses : list string :=
  ["draft"; "approved"; "ordered"; "received"; "cancelled"].

Definition fields (P : platform) (d : dict) : validation t :=
  Valid Build_t
    <*> with_default "number" (optional str) None d
    <*> required "supplier_id" str d
    <*> with_default "status" (literal statuses) "draft" d
    <*> required "items" (list_of (PurchaseItem.validate P)) d
    <*> with_default "notes" (optional str) None d.

Definition validate (P : platform) : validator t := model (fields P).
End PurchaseOrder.

Module GLAccount.
Record t : Type := {
  code : string;
  name : string;
  type : string
}.

Definition types : list string :=
  ["asset"; "liability"; "equity"; "income"; "expense"].

Definition fields (d : dict) : validation t :=
  Valid Build_t
    <*> required "code" str d
    <*> required "name" str d
    <*> required "type" (literal types) d.

Definition validate : validator t := model fields.
End GLAccount.

End Entities.

(** ** main.py: the diagnostic routes *)

Module Health.

(** [GET /] *)
Definition read_root : dict :=
  [("name", VStr "Linqkeun Mini ERP API"); ("status", VStr "ok")].

(** What reading [db.name] can do: the attribute is not there
    ([hasattr] is false), it is there, or reading it raises something
    that is not an [AttributeError], with the text [str(e)]. *)
Inductive attribute : Type :=
| Absent
| Present (s : string)
| Failing (message : string).

(** The handle [db] of the [database] module, as far as [test_database]
    looks at it.  [list_collection_names] returns the names or raises,
    [inl] holding [str(e)].  The characters of a text are kept one per
    [ascii]. *)
Record database : Type := {
  name : attribute;
  list_collection_names : string + list string
}.

(** Truth value of [os.getenv(...)]: unset and empty are false. *)
Definition truthy (o : option string) : bool :=
  match o with
  | Some (String _ _) => true
  | _ => false
  end.

Definition set_flag (truth : bool) : value :=
  VStr (if truth then "✅ Set" else "❌ Not Set").

(** [GET /test] *)
Definition test_database (db : option database)
    (getenv : string -> option string) : dict :=
  let response :=
    [("backend", VStr "✅ Running");
     ("database", VStr "❌ Not Available");
     ("database_url", VNone);
     ("database_name", VNone);
     ("connection_status", VStr "Not Connected");
     ("collections", VList [])] in
  let response :=
    match db with
    | Some handle =>
        let response := Dict.set "database" (VStr "✅ Available") response in
        let response :=
          Dict.set "database_url" (VStr "✅ Configured") response in
        match name handle with
        | Failing message =>
            Dict.set "database"
              (VStr (String.append "❌ Error: " (substring 0 80 message)))
              response
        | attr =>
            let response :=
              Dict.set "database_name"
                (VStr match attr with
                      | Present n => n
                      | _ => "✅ Connected"
                      end) response in
            let response :=
              Dict.set "connection_status" (VStr "Connected") response in
            match list_collection_names handle with
            | inr collections =>
                let response :=
                  Dict.set "collections"
                    (VList (map VStr (firstn 20 collections))) response in
                Dict.set "database" (VStr "✅ Connected & Working") response
            | inl message =>
                Dict.set "database"
                  (VStr (String.append "⚠️  Connected but Error: "
                           (substring 0 80 message)))
                  response
            end
        end
    | None =>
        Dict.set "database" (VStr "⚠️  Available but not initialized") response
    end in
  let response :=
    Dict.set "database_url" (set_flag (truthy (getenv "DATABASE_URL")))
      response in
  Dict.set "database_name" (set_flag (truthy (getenv "DATABASE_NAME")))
    response.

End Health.

(** ** main.py: the list routes *)

Module Listing.



Section Routes.
Variable store : Type.

(** [get_documents(collection, filter, limit)] of the [database] module,
    which is not among the sources: it returns documents or raises. *)
Variable get_documents :
  string -> dict -> Z -> store -> Py.result (list dict).
Variable other : value -> string.



End Routes.

End Listing.

(** ** What the request models accept, in terms of the body *)

Module Accepts.

Definition is_valid {A} (r : Pydantic.validation A) : bool :=
  match r with
  | Pydantic.Valid _ => true
  | Pydantic.Invalid _ => false
  end.

Definition rejected (r : Main.response) : bool :=
  match r with
  | Main.R422 _ => true
  | _ => false
  end.

Definition is_string (o : option value) : bool :=
  match o with
  | Some (VStr _) => true
  | _ => false
  end.

Definition absent_or_string (o : option value) : bool :=
  match o with
  | None | Some (VStr _) => true
  | _ => false
  end.

Definition absent_null_or_string (o : option value) : bool :=
  match o with
  | None | Some VNone | Some (VStr _) => true
  | _ => false
  end.

Definition is_number (P : platform) (o : option value) : bool :=
  match o with
  | Some v => match Pydantic.coerce_float P v with
              | Some _ => true
              | None => false
              end
  | None => false
  end.

Definition absent_or_number (P : platform) (o : option value) : bool :=
  match o with
  | Some v => is_number P (Some v)
  | None => true
  end.

Definition customer (body : value) : bool :=
  match body with
  | VDict d =>
      is_string (Dict.get "name" d)
      && absent_null_or_string (Dict.get "email" d)
      && absent_null_or_string (Dict.get "phone" d)
  | _ => false
  end.

Definition product (P : platform) (body : value) : bool :=
  match body with
  | VDict d =>
      is_string (Dict.get "sku" d)
      && is_string (Dict.get "name" d)
      && is_number P (Dict.get "price" d)
  | _ => false
  end.

Definition item (P : platform) (v : value) : bool :=
  match v with
  | VDict d =>
      is_string (Dict.get "product_id" d)
      && is_string (Dict.get "name" d)
      && is_number P (Dict.get "quantity" d)
      && is_number P (Dict.get "price" d)
      && absent_or_number P (Dict.get "tax_rate" d)
  | _ => false
  end.

Definition invoice (P : platform) (body : value) : bool :=
  match body with
  | VDict d =>
      is_string (Dict.get "customer_id" d)
      && match Dict.get "items" d with
         | Some (VList its) => forallb (item P) its
         | _ => false
         end
      && absent_or_string (Dict.get "currency" d)
  | _ => false
  end.

End Accepts.

(** ** The documents the handlers hand to the store *)

Definition customer_document (now : datetime) (m : Main.CreateCustomer.t)
    : dict :=
  [("name", VStr (Main.CreateCustomer.name m));
   ("email", Pydantic.dump_option VStr (Main.CreateCustomer.email m));
   ("phone", Pydantic.dump_option VStr (Main.CreateCustomer.phone m));
   ("created_at", VDatetime now)].

Definition product_document (now : datetime) (m : Main.CreateProduct.t)
    : dict :=
  [("sku", VStr (Main.CreateProduct.sku m));
   ("name", VStr (Main.CreateProduct.name m));
   ("price", VFloat (Main.CreateProduct.price m));
   ("created_at", VDatetime now)].

Definition invoice_document (P : platform) (now : datetime)
    (m : Main.CreateInvoice.t) : dict :=
  [("customer_id", VStr (Main.CreateInvoice.customer_id m));
   ("items", dump_items (Main.CreateInvoice.items m));
   ("currency", VStr (Main.CreateInvoice.currency m));
   ("status", VStr "draft");
   ("created_at", VDatetime now);
   ("total", total_value P (Main.CreateInvoice.items m))].

(** One call of [create_document]; its identifier goes in front of the
    document, its exception is passed on. *)
Definition store_and_return (P : platform) (collection : string) (doc : dict)
    (s : store P) : Py.result dict * store P :=
  match create_document P collection doc s with
  | (Py.Ok oid, s') => (Py.Ok (("id", VStr oid) :: doc), s')
  | (Py.Raise e, s') => (Py.Raise e, s')
  end.

(** A validated line, a product, an invoice whose numbers are all
    finite, the computed total included: what the rendering of the
    answer asks for. *)
Definition finite_item (i : Main.InvoiceItem.t) : bool :=
  Float.is_finite (Main.InvoiceItem.quantity i)
  && Float.is_finite (Main.InvoiceItem.price i)
  && Float.is_finite (Main.InvoiceItem.tax_rate i).

Definition finite_invoice (P : platform) (m : Main.CreateInvoice.t) : bool :=
  forallb finite_item (Main.CreateInvoice.items m)
  && Py.json_compliant (total_value P (Main.CreateInvoice.items m)).

(** An item in which the key [k] is set to [v]. *)
Definition set_in_item (k : string) (v : value) (item : value) : value :=
  match item with
  | VDict d => VDict (Dict.set k v d)
  | _ => item
  end.

(** A float that is not below zero; a NaN is not. *)
Definition not_negative (x : float) : bool := negb (Float.ltb x Float.zero).

Definition not_negative_item (i : Main.InvoiceItem.t) : bool :=
  not_negative (Main.InvoiceItem.quantity i)
  && not_negative (Main.InvoiceItem.price i)
  && not_negative (Main.InvoiceItem.tax_rate i).

(** A float loop of [sum] that keeps a run of floats that are not below
    zero not below zero. *)
Definition sum_keeps_sign (P : platform) : Prop :=
  forall f xs,
    not_negative f = true ->
    forallb not_negative xs = true ->
    not_negative (float_sum P f xs) = true.

(** An invoice body whose second line has no quantity. *)
Definition bolt_without_quantity : value :=
  VDict [("product_id", VStr "P2"); ("name", VStr "Bolt"); ("price", VInt 3)].

Definition two_lines : list value :=
  [VDict [("product_id", VStr "P1"); ("name", VStr "Widget");
          ("quantity", VInt 2); ("price", VInt 100)];
   bolt_without_quantity].

Definition two_line_invoice : dict :=
  [("customer_id", VStr "C1"); ("items", VList two_lines)].

(** A purchase order with a status that is not in the vocabulary. *)
Definition shipped_order : dict :=
  [("supplier_id", VStr "S1"); ("status", VStr "shipped"); ("items", VList [])].

(** A database handle whose listing fails, and an environment with an
    empty [DATABASE_URL]. *)
Definition broken_handle : Health.database :=
  {| Health.name := Health.Present "erp";
     Health.list_collection_names := inl "connection refused" |}.

Definition empty_url_env (k : string) : option string :=
  if String.eqb k "DATABASE_URL" then Some "" else None.





(** A returned line whose quantity, price and tax rate are floats that
    are not below zero. *)
Definition not_negative_line (line : value) : bool :=
  match line with
  | VDict d =>
      match Dict.get "quantity" d, Dict.get "price" d,
            Dict.get "tax_rate" d with
      | Some (VFloat q), Some (VFloat p), Some (VFloat t) =>
          not_negative q && not_negative p && not_negative t
      | _, _, _ => false
      end
  | _ => false
  end.

Definition working_handle : Health.database :=
  {| Health.name := Health.Present "erp";
     Health.list_collection_names := inr ["customer"; "invoice"] |}.

(** * Properties *)

Arguments Float.add : simpl never.
Arguments Float.mul : simpl never.
Arguments Float.sub : simpl never.
Arguments Float.div : simpl never.
Arguments Float.of_Z : simpl never.
Arguments Float.of_decimal : simpl never.
Arguments Float.round2 : simpl never.

(** ** Dictionaries *)

Lemma get_set_same (k : string) (v : value) (d : dict) :
  Dict.get k (Dict.set k v d) = Some v.
Proof.
  induction d as [|[k' v'] d IH]; simpl.
  - now rewrite String.eqb_refl.
  - destruct (String.eqb k' k) eqn:E; simpl; rewrite E; auto.
Qed.

Lemma get_set_other (k k' : string) (v : value) (d : dict) :
  k <> k' -> Dict.get k' (Dict.set k v d) = Dict.get k' d.
Proof.
  intros Hne.
  induction d as [|[k0 v0] d IH]; simpl.
  - destruct (String.eqb k k') eqn:E; [|reflexivity].
    apply String.eqb_eq in E. contradiction.
  - destruct (String.eqb k0 k) eqn:E; simpl.
    + apply String.eqb_eq in E. subst k0.
      destruct (String.eqb k k') eqn:E'; [|reflexivity].
      apply String.eqb_eq in E'. contradiction.
    + now rewrite IH.
Qed.

(** ** Validation results *)

Lemma ap_valid {A B} (f : Pydantic.validation (A -> B))
    (x : Pydantic.validation A) (b : B) :
  f <*> x = Pydantic.Valid b ->
  exists g a, f = Pydantic.Valid g /\ x = Pydantic.Valid a /\ b = g a.
Proof.
  destruct f as [g|e1], x as [a|e2]; simpl; intros H; try discriminate.
  injection H as <-. now exists g, a.
Qed.

Lemma errors_ap {A B} (f : Pydantic.validation (A -> B))
    (x : Pydantic.validation A) :
  Pydantic.errors (f <*> x) = Pydantic.errors f ++ Pydantic.errors x.
Proof.
  destruct f, x; simpl; auto using app_nil_r.
Qed.

Lemma at_loc_valid {A} (l : Pydantic.loc_item) (r : Pydantic.validation A)
    (a : A) :
  Pydantic.at_loc l r = Pydantic.Valid a -> r = Pydantic.Valid a.
Proof.
  destruct r; simpl; congruence.
Qed.

Lemma errors_at_loc {A} (l : Pydantic.loc_item) (r : Pydantic.validation A)
    (e : Pydantic.error) :
  In e (Pydantic.errors (Pydantic.at_loc l r)) ->
  exists tl, Pydantic.loc e = l :: tl.
Proof.
  destruct r as [a|errs]; simpl; [tauto|].
  rewrite in_map_iff. intros (e0 & <- & _). simpl. eauto.
Qed.

(** ** The invoice total *)

Lemma line_amount_dump (i : Main.InvoiceItem.t) :
  Main.line_amount (VDict (Main.InvoiceItem.model_dump i))
  = Py.Ok (VFloat (Spec.line_total i)).
Proof. reflexivity. Qed.

Lemma mapM_line_amount (items : list Main.InvoiceItem.t) :
  Py.mapM Main.line_amount
    (map (fun i => VDict (Main.InvoiceItem.model_dump i)) items)
  = Py.Ok (map VFloat (map Spec.line_total items)).
Proof.
  induction items as [|i items IH]; [reflexivity|].
  cbn [map Py.mapM]. rewrite line_amount_dump, IH. reflexivity.
Qed.

Lemma all_floats_map (xs : list float) :
  Py.all_floats (map VFloat xs) = Some xs.
Proof.
  induction xs as [|x xs IH]; simpl; [reflexivity|]. now rewrite IH.
Qed.

Lemma py_sum_floats (P : platform) (xs : list float) :
  Main.py_sum P (map VFloat xs)
  = Py.Ok match xs with
          | [] => VInt 0
          | _ :: _ => VFloat (Spec.sum P xs)
          end.
Proof.
  destruct xs as [|x xs]; [reflexivity|].
  unfold Main.py_sum. cbn [map].
  change (Py.add (VInt 0) (VFloat x))
    with (Py.Ok (VFloat (Float.add Float.zero x))).
  cbn [Py.bind]. now rewrite all_floats_map.
Qed.

(** With the plain loop the sum is the left to right sum from zero. *)
Remark sum_plain_is_left_fold (xs : list float) :
  Spec.sum cpython_3_11 xs = fold_left Float.add xs Float.zero.
Proof. destruct xs; reflexivity. Qed.

(** [round(x, 2)] at the boundaries: 0.125 and 0.375 are exact ties and
    go to the even hundredth; the double nearest to 2.675 lies below the
    tie, the one nearest to 1.005 as well; the sign of a zero is kept. *)
Example round2_boundaries :
  Float.round2 (Float.of_decimal 125 3) = Float.of_decimal 12 2 /\
  Float.round2 (Float.of_decimal 375 3) = Float.of_decimal 38 2 /\
  Float.round2 (Float.of_decimal 2675 3) = Float.of_decimal 267 2 /\
  Float.round2 (Float.of_decimal 1005 3) = Float.of_Z 1 /\
  Float.round2 (Float.of_decimal (-1) 3) = S754_zero true.
Proof. repeat split; vm_compute; reflexivity. Qed.

(** The total depends on the ["items"] entry of the invoice only, and
    for the dump of validated items it is the rounded sum. *)
Lemma invoice_total_of_items (P : platform) (inv : dict)
    (items : list Main.InvoiceItem.t) :
  Dict.get "items" inv = Some (dump_items items) ->
  Main.invoice_total P inv = Py.Ok (total_value P items).
Proof.
  intros Hitems. unfold Main.invoice_total, Py.getitem.
  rewrite Hitems. unfold dump_items. cbn [Py.bind Py.iter].
  rewrite mapM_line_amount. cbn [Py.bind].
  rewrite py_sum_floats. cbn [Py.bind].
  destruct items; reflexivity.
Qed.

Lemma number_value_total (P : platform) (items : list Main.InvoiceItem.t) :
  Py.number_value (total_value P items) = Some (Spec.invoice_total P items).
Proof. destruct items; reflexivity. Qed.

(** When the store is not reachable the exception of [create_document]
    is what the route answers, and nothing is written. *)
Example storage_failure_is_reported :
  Main.post_invoices offline 1700%Z widget_invoice []
  = (Main.R500 Py.StorageError, []).
Proof. vm_compute. reflexivity. Qed.

(** A line of 1e308 × 10 overflows: the invoice is stored with an
    infinite total, and the answer cannot be rendered. *)
Example overflowing_invoice_is_stored :
  fst (Main.post_invoices cpython_3_11 1700%Z overflowing_invoice [])
  = Main.R500 Py.ValueError /\
  map MemoryStore.collection
    (snd (Main.post_invoices cpython_3_11 1700%Z overflowing_invoice []))
  = ["invoice"].
Proof. split; vm_compute; reflexivity. Qed.

(** What a successful [create_invoice] returns, field by field. *)
Lemma create_invoice_ok (P : platform) (now : datetime)
    (payload : Main.CreateInvoice.t) (s s' : store P) (doc : dict) :
  Main.create_invoice P now payload s = (Py.Ok doc, s') ->
  exists inv_id,
    doc = [("id", VStr inv_id);
           ("customer_id", VStr (Main.CreateInvoice.customer_id payload));
           ("items", dump_items (Main.CreateInvoice.items payload));
           ("currency", VStr (Main.CreateInvoice.currency payload));
           ("status", VStr "draft");
           ("created_at", VDatetime now);
           ("total", total_value P (Main.CreateInvoice.items payload))].
Proof.
  unfold Main.create_invoice.
  rewrite (invoice_total_of_items P _ (Main.CreateInvoice.items payload))
    by reflexivity.
  destruct (create_document P _ _ s) as [[inv_id|e] s0]; intros H;
    [|discriminate].
  injection H as <- <-. now exists inv_id.
Qed.

Lemma route_ok (P : platform) {A} (validate : Pydantic.validator A)
    (handler : A -> store P -> Py.result dict * store P)
    (body : value) (s s' : store P) (doc : dict) :
  Main.route P validate handler body s = (Main.R200 doc, s') ->
  exists payload,
    validate body = Pydantic.Valid payload /\
    handler payload s = (Py.Ok doc, s').
Proof.
  unfold Main.route.
  destruct (validate body) as [payload|errs]; [|discriminate].
  destruct (handler payload s) as [[d|e] s0] eqn:E; intros H;
    [|discriminate].
  destruct (Py.json_compliant (VDict d)); [|discriminate].
  injection H as <- <-. now exists payload.
Qed.

(** C1.  For every body that [POST /invoices] accepts, the total of the
    returned invoice is the number
    round(Σ quantity × price × (1 + tax_rate), 2) taken over the items
    of that same invoice, in the double arithmetic of the interpreter.
    For the request customer_id = "C1" with the single item
    {product_id: "P1", name: "Widget", quantity: 2, price: 100.0,
    tax_rate: 0.11} the total is the float 222.0 (on any interpreter
    whose float loop returns its accumulator when nothing follows). *)
Theorem invoice_total_is_rounded_sum :
  (forall (P : platform) (now : datetime) (body : value) (s s' : store P)
          (doc : dict),
      Main.post_invoices P now body s = (Main.R200 doc, s') ->
      exists items total,
        Dict.get "items" doc = Some (dump_items items) /\
        Dict.get "total" doc = Some total /\
        Py.number_value total = Some (Spec.invoice_total P items)) /\
  (forall (P : platform) (now : datetime) (s s' : store P) (doc : dict),
      (forall f, float_sum P f [] = f) ->
      Main.post_invoices P now widget_invoice s = (Main.R200 doc, s') ->
      Dict.get "total" doc = Some (VFloat (Float.of_Z 222))).
Proof.
  split.
  - intros P now body s s' doc H.
    apply route_ok in H as (payload & _ & H).
    apply create_invoice_ok in H as (inv_id & ->).
    exists (Main.CreateInvoice.items payload),
           (total_value P (Main.CreateInvoice.items payload)).
    repeat split; auto using number_value_total.
  - intros P now s s' doc Hsum H.
    apply route_ok in H as (payload & Hv & H).
    apply create_invoice_ok in H as (inv_id & ->).
    vm_compute in Hv. injection Hv as <-.
    simpl. unfold Spec.invoice_total. simpl. rewrite Hsum.
    vm_compute. reflexivity.
Qed.

Lemma invoice_total_is_rounded_sum_witness :
  Dict.get "total" (response_doc (fst widget_run))
    = Some (VFloat (Float.of_Z 222)) /\
  exists items total,
    Dict.get "items" (response_doc (fst widget_run)) = Some (dump_items items) /\
    Dict.get "total" (response_doc (fst widget_run)) = Some total /\
    Py.number_value total = Some (Spec.invoice_total cpython_3_12 items).
Proof.
  destruct invoice_total_is_rounded_sum as [Hsum Hwidget].
  split.
  - apply (Hwidget cpython_3_12 1700%Z [] (snd widget_run)).
    + intros f. reflexivity.
    + vm_compute. reflexivity.
  - apply (Hsum cpython_3_12 1700%Z widget_invoice [] (snd widget_run)).
    vm_compute. reflexivity.
Defined.

(** ** The tax rate of a line *)

Lemma required_set_other {A} (k k' : string) (v : value)
    (f : Pydantic.validator A) (d : dict) :
  k <> k' ->
  Pydantic.required k' f (Dict.set k v d) = Pydantic.required k' f d.
Proof.
  intros H. unfold Pydantic.required. now rewrite get_set_other.
Qed.

Lemma with_default_set_other {A} (k k' : string) (v : value)
    (f : Pydantic.validator A) (a : A) (d : dict) :
  k <> k' ->
  Pydantic.with_default k' f a (Dict.set k v d)
  = Pydantic.with_default k' f a d.
Proof.
  intros H. unfold Pydantic.with_default. now rewrite get_set_other.
Qed.

Lemma validate_explicit_tax_rate (P : platform) (v : value) :
  Main.InvoiceItem.validate P (with_explicit_tax_rate v)
  = Main.InvoiceItem.validate P v.
Proof.
  destruct v as [| | | | | |items|d]; try reflexivity.
  unfold with_explicit_tax_rate.
  destruct (Dict.get "tax_rate" d) eqn:E; [reflexivity|].
  unfold Main.InvoiceItem.validate, Pydantic.model, Main.InvoiceItem.fields.
  rewrite !required_set_other by discriminate.
  f_equal.
  unfold Pydantic.with_default. now rewrite get_set_same, E.
Qed.

Lemma list_items_ext {A} (f : Pydantic.validator A) (g : value -> value) :
  (forall v, f (g v) = f v) ->
  forall vs i,
    Pydantic.list_items f i (map g vs) = Pydantic.list_items f i vs.
Proof.
  intros H vs. induction vs as [|v vs IH]; intros i; simpl; [reflexivity|].
  now rewrite H, IH.
Qed.

Lemma validate_map_explicit_tax_rate (P : platform) (body : value) :
  Main.CreateInvoice.validate P (map_items with_explicit_tax_rate body)
  = Main.CreateInvoice.validate P body.
Proof.
  destruct body as [| | | | | |items|d]; try reflexivity.
  unfold map_items.
  destruct (Dict.get "items" d) as [[| | | | | |its|d']|] eqn:E;
    try reflexivity.
  unfold Main.CreateInvoice.validate, Pydantic.model,
    Main.CreateInvoice.fields.
  rewrite required_set_other, with_default_set_other by discriminate.
  do 2 f_equal.
  unfold Pydantic.required. rewrite get_set_same, E.
  unfold Pydantic.list_of.
  now rewrite (list_items_ext _ _ (validate_explicit_tax_rate P)).
Qed.

(** Peels the fields off a successful model validation. *)
Ltac valid_fields H :=
  repeat match type of H with
         | _ <*> _ = Pydantic.Valid _ =>
             let g := fresh "g" in
             let a := fresh "a" in
             let Hf := fresh "Hfield" in
             let Hb := fresh "Hb" in
             apply ap_valid in H as (g & a & H & Hf & Hb); subst
         end;
  injection H as <-.

Lemma float_valid (P : platform) (v : value) (x : float) :
  Pydantic.float_ P v = Pydantic.Valid x -> Pydantic.coerce_float P v = Some x.
Proof.
  unfold Pydantic.float_. destruct (Pydantic.coerce_float P v); simpl;
    intros H; [now injection H as ->|discriminate].
Qed.

Lemma required_valid {A} (k : string) (f : Pydantic.validator A) (d : dict)
    (a : A) :
  Pydantic.required k f d = Pydantic.Valid a ->
  exists v, Dict.get k d = Some v /\ f v = Pydantic.Valid a.
Proof.
  unfold Pydantic.required. destruct (Dict.get k d) as [v|]; intros H;
    [|discriminate H].
  apply at_loc_valid in H. eauto.
Qed.

Lemma with_default_valid {A} (k : string) (f : Pydantic.validator A)
    (dflt : A) (d : dict) (a : A) :
  Pydantic.with_default k f dflt d = Pydantic.Valid a ->
  match Dict.get k d with
  | Some v => f v = Pydantic.Valid a
  | None => a = dflt
  end.
Proof.
  unfold Pydantic.with_default. destruct (Dict.get k d) as [v|]; intros H.
  - now apply at_loc_valid in H.
  - now injection H as <-.
Qed.

Lemma list_items_forall2 {A} (f : Pydantic.validator A) :
  forall (vs : list value) (i : nat) (l : list A),
    Pydantic.list_items f i vs = Pydantic.Valid l ->
    Forall2 (fun v a => f v = Pydantic.Valid a) vs l.
Proof.
  induction vs as [|v vs IH]; intros i l H.
  - simpl in H. injection H as <-. constructor.
  - cbn [Pydantic.list_items] in H.
    apply ap_valid in H as (g & tl & H & Htl & ->).
    apply ap_valid in H as (c & a & H & Ha & ->).
    injection H as <-. apply at_loc_valid in Ha.
    constructor; [assumption|]. now apply (IH (S i)).
Qed.

Lemma item_valid_matches (P : platform) (v : value) (i : Main.InvoiceItem.t) :
  Main.InvoiceItem.validate P v = Pydantic.Valid i -> line_matches P v i.
Proof.
  intros H. destruct v as [| | | | | |items|d]; try discriminate H.
  unfold Main.InvoiceItem.validate, Pydantic.model,
    Main.InvoiceItem.fields in H.
  valid_fields H.
  apply required_valid in Hfield1 as (q & Hq & Hqv).
  apply required_valid in Hfield0 as (p & Hp & Hpv).
  apply float_valid in Hqv, Hpv.
  apply with_default_valid in Hfield.
  exists d. split; [reflexivity|]. simpl.
  split; [now exists q|]. split; [now exists p|].
  destruct (Dict.get "tax_rate" d); [now apply float_valid|assumption].
Qed.

(** C4.  The total is computed from each line's own tax rate.  For
    every body [POST /invoices] answers with a document, the returned
    total is round(Σ quantity × price × (1 + rate), 2) over the lines of
    the body, where the rate of a line is the one that line gives and
    0.11 when the line gives none: never 0, and never a rate named at
    the level of the document, which is ignored.  Writing 0.11 into
    every line that omits the rate changes nothing in what the route
    answers.  Two lines of 1 × 100 taxed at 0.5 and at 0 total 250.0,
    and the widget of the scenario without a rate totals 222.0. *)
Theorem line_tax_rate_default :
  (forall (P : platform) (d : dict) (i : Main.InvoiceItem.t),
      Main.InvoiceItem.validate P (VDict d) = Pydantic.Valid i ->
      match Dict.get "tax_rate" d with
      | Some v => Pydantic.coerce_float P v = Some (Main.InvoiceItem.tax_rate i)
      | None => Main.InvoiceItem.tax_rate i = Float.of_decimal 11 2
      end) /\
  (forall (P : platform) (now : datetime) (body : value) (s : store P),
      Main.post_invoices P now (map_items with_explicit_tax_rate body) s
      = Main.post_invoices P now body s) /\
  Dict.get "total"
    (response_doc
       (fst (Main.post_invoices cpython_3_11 1700%Z widget_invoice_no_rate [])))
  = Some (VFloat (Float.of_Z 222)) /\
  Dict.get "total"
    (response_doc
       (fst (Main.post_invoices cpython_3_12 1700%Z widget_invoice_no_rate [])))
  = Some (VFloat (Float.of_Z 222)) /\
  (forall (P : platform) (now : datetime) (d : dict) (lines : list value)
          (s s' : store P) (doc : dict),
      Main.post_invoices P now (VDict d) s = (Main.R200 doc, s') ->
      Dict.get "items" d = Some (VList lines) ->
      exists items total,
        Forall2 (line_matches P) lines items /\
        Dict.get "total" doc = Some total /\
        Py.number_value total = Some (Spec.invoice_total P items)) /\
  (forall (P : platform) (now : datetime) (d : dict) (v : value)
          (s : store P),
      Main.post_invoices P now (VDict (Dict.set "tax_rate" v d)) s
      = Main.post_invoices P now (VDict d) s) /\
  Dict.get "total"
    (response_doc
       (fst (Main.post_invoices cpython_3_11 1700%Z (VDict two_rate_invoice) [])))
  = Some (VFloat (Float.of_Z 250)) /\
  Dict.get "total"
    (response_doc
       (fst (Main.post_invoices cpython_3_12 1700%Z (VDict two_rate_invoice) [])))
  = Some (VFloat (Float.of_Z 250)).
Proof.
  split; [|split; [|split; [|split; [|split; [|split; [|split]]]]]].
  - intros P d i H.
    unfold Main.InvoiceItem.validate, Pydantic.model,
      Main.InvoiceItem.fields in H.
    valid_fields H. simpl.
    unfold Pydantic.with_default in Hfield.
    destruct (Dict.get "tax_rate" d) as [v|].
    + apply at_loc_valid in Hfield. now apply float_valid.
    + now injection Hfield as <-.
  - intros P now body s. unfold Main.post_invoices, Main.route.
    now rewrite validate_map_explicit_tax_rate.
  - vm_compute. reflexivity.
  - vm_compute. reflexivity.
  - intros P now d lines s s' doc H Hlines.
    apply route_ok in H as (payload & Hv & H).
    apply create_invoice_ok in H as (inv_id & ->).
    exists (Main.CreateInvoice.items payload),
           (total_value P (Main.CreateInvoice.items payload)).
    split; [|split; [reflexivity|apply number_value_total]].
    unfold Main.CreateInvoice.validate, Pydantic.model,
      Main.CreateInvoice.fields in Hv.
    valid_fields Hv. simpl.
    apply required_valid in Hfield0 as (v & Hget & Hlist).
    rewrite Hlines in Hget. injection Hget as <-.
    unfold Pydantic.list_of in Hlist.
    apply list_items_forall2 in Hlist.
    revert Hlist. apply Forall2_impl. apply item_valid_matches.
  - intros P now d v s.
    unfold Main.post_invoices, Main.route, Main.CreateInvoice.validate,
      Pydantic.model, Main.CreateInvoice.fields.
    now rewrite !required_set_other, with_default_set_other by discriminate.
  - vm_compute. reflexivity.
  - vm_compute. reflexivity.
Qed.

Lemma line_tax_rate_default_witness :
  Main.InvoiceItem.tax_rate
    {| Main.InvoiceItem.product_id := "P1";
       Main.InvoiceItem.name := "Widget";
       Main.InvoiceItem.quantity := Float.of_Z 2;
       Main.InvoiceItem.price := Float.of_Z 100;
       Main.InvoiceItem.tax_rate := Float.of_decimal 11 2 |}
  = Float.of_decimal 11 2 /\
  exists items total,
    Forall2 (line_matches cpython_3_11) two_rate_lines items /\
    Dict.get "total"
      (response_doc
         (fst (Main.post_invoices cpython_3_11 1700%Z
                 (VDict two_rate_invoice) [])))
    = Some total /\
    Py.number_value total = Some (Spec.invoice_total cpython_3_11 items).
Proof.
  destruct line_tax_rate_default as (Hrate & _ & _ & _ & Htotal & _).
  split.
  - apply (Hrate cpython_3_11
             [("product_id", VStr "P1"); ("name", VStr "Widget");
              ("quantity", VInt 2);
              ("price", VFloat (Float.of_decimal 1000 1))]).
    vm_compute. reflexivity.
  - apply (Htotal cpython_3_11 1700%Z two_rate_invoice two_rate_lines []
             (snd (Main.post_invoices cpython_3_11 1700%Z
                     (VDict two_rate_invoice) []))).
    + vm_compute. reflexivity.
    + reflexivity.
Defined.

(** ** Server-side fields of an invoice *)

Lemma validate_invoice_set_other (P : platform) (k : string) (v : value)
    (d : dict) :
  ~ In k ["customer_id"; "items"; "currency"] ->
  Main.CreateInvoice.validate P (VDict (Dict.set k v d))
  = Main.CreateInvoice.validate P (VDict d).
Proof.
  intros H. simpl in H.
  unfold Main.CreateInvoice.validate, Pydantic.model,
    Main.CreateInvoice.fields.
  rewrite !required_set_other, with_default_set_other; intuition.
Qed.

(** C5.  Every invoice [POST /invoices] returns carries the instant the
    server read from its clock under "created_at", the status "draft",
    and under "total" the value the server computed from the returned
    items.  No key of the request other than the three fields of the
    request model has any influence on the answer or on the store: a
    "total" (or "status", "created_at", "id") sent by the caller is
    ignored. *)
Theorem invoice_server_fields :
  (forall (P : platform) (now : datetime) (body : value) (s s' : store P)
          (doc : dict),
      Main.post_invoices P now body s = (Main.R200 doc, s') ->
      Dict.get "created_at" doc = Some (VDatetime now) /\
      Dict.get "status" doc = Some (VStr "draft") /\
      exists items,
        Dict.get "items" doc = Some (dump_items items) /\
        Dict.get "total" doc = Some (total_value P items)) /\
  (forall (P : platform) (now : datetime) (d : dict) (k : string)
          (v : value) (s : store P),
      ~ In k ["customer_id"; "items"; "currency"] ->
      Main.post_invoices P now (VDict (Dict.set k v d)) s
      = Main.post_invoices P now (VDict d) s).
Proof.
  split.
  - intros P now body s s' doc H.
    apply route_ok in H as (payload & _ & H).
    apply create_invoice_ok in H as (inv_id & ->).
    repeat split. now exists (Main.CreateInvoice.items payload).
  - intros P now d k v s Hk. unfold Main.post_invoices, Main.route.
    now rewrite validate_invoice_set_other.
Qed.

Lemma invoice_server_fields_witness :
  (Dict.get "created_at" (response_doc (fst widget_run))
     = Some (VDatetime 1700%Z) /\
   Dict.get "status" (response_doc (fst widget_run)) = Some (VStr "draft") /\
   exists items,
     Dict.get "items" (response_doc (fst widget_run)) = Some (dump_items items) /\
     Dict.get "total" (response_doc (fst widget_run))
       = Some (total_value cpython_3_12 items)) /\
  Main.post_invoices cpython_3_12 1700%Z
    (VDict (Dict.set "total" (VInt 1000000)
              [("customer_id", VStr "C1"); ("items", VList [])])) []
  = Main.post_invoices cpython_3_12 1700%Z
      (VDict [("customer_id", VStr "C1"); ("items", VList [])]) [].
Proof.
  destruct invoice_server_fields as [Hfields Hignored].
  split.
  - apply (Hfields cpython_3_12 1700%Z widget_invoice [] (snd widget_run)).
    vm_compute. reflexivity.
  - apply (Hignored cpython_3_12 1700%Z).
    simpl. intros [H|[H|[H|[]]]]; discriminate H.
Defined.

(** ** Determinism of the total *)

(** C9.  The total is a function of the list of items alone: two
    invoices with the same "items" entry get the same total whatever
    their other fields are; computing it again after it has been stored
    in the invoice gives the same value; and two requests with the same
    body, served at different instants on different stores, return the
    same total. *)
Theorem invoice_total_deterministic :
  (forall (P : platform) (inv inv' : dict),
      Dict.get "items" inv = Dict.get "items" inv' ->
      Main.invoice_total P inv = Main.invoice_total P inv') /\
  (forall (P : platform) (inv : dict) (total : value),
      Main.invoice_total P inv = Py.Ok total ->
      Main.invoice_total P (Dict.set "total" total inv) = Py.Ok total) /\
  (forall (P : platform) (now1 now2 : datetime) (body : value)
          (s1 s1' s2 s2' : store P) (doc1 doc2 : dict),
      Main.post_invoices P now1 body s1 = (Main.R200 doc1, s1') ->
      Main.post_invoices P now2 body s2 = (Main.R200 doc2, s2') ->
      Dict.get "total" doc1 = Dict.get "total" doc2).
Proof.
  assert (Hitems : forall P inv inv',
             Dict.get "items" inv = Dict.get "items" inv' ->
             Main.invoice_total P inv = Main.invoice_total P inv').
  { intros P inv inv' H. unfold Main.invoice_total, Py.getitem.
    now rewrite H. }
  split; [exact Hitems|split].
  - intros P inv total H. rewrite <- H. apply Hitems.
    apply get_set_other. discriminate.
  - intros P now1 now2 body s1 s1' s2 s2' doc1 doc2 H1 H2.
    apply route_ok in H1 as (p1 & Hv1 & H1).
    apply route_ok in H2 as (p2 & Hv2 & H2).
    rewrite Hv1 in Hv2. injection Hv2 as <-.
    apply create_invoice_ok in H1 as (id1 & ->).
    apply create_invoice_ok in H2 as (id2 & ->).
    reflexivity.
Qed.

Lemma invoice_total_deterministic_witness :
  Main.invoice_total cpython_3_12
    [("items", dump_items []); ("currency", VStr "IDR")]
  = Main.invoice_total cpython_3_12
      [("customer_id", VStr "C1"); ("items", dump_items [])] /\
  Main.invoice_total cpython_3_12
    (Dict.set "total" (VInt 0) [("items", dump_items [])])
  = Py.Ok (VInt 0) /\
  Dict.get "total" (response_doc (fst widget_run))
  = Dict.get "total"
      (response_doc
         (fst (Main.post_invoices cpython_3_12 2900%Z widget_invoice
                 (snd widget_run)))).
Proof.
  destruct invoice_total_deterministic as [Hitems [Hagain Htwice]].
  split; [|split].
  - apply Hitems. reflexivity.
  - apply Hagain. reflexivity.
  - apply (Htwice cpython_3_12 1700%Z 2900%Z widget_invoice
             [] (snd widget_run) (snd widget_run)
             (snd (Main.post_invoices cpython_3_12 2900%Z widget_invoice
                     (snd widget_run)))).
    + vm_compute. reflexivity.
    + vm_compute. reflexivity.
Defined.

(** ** Order on floats *)

Lemma compare_antisym (a b : float) :
  SFcompare b a = option_map CompOpp (SFcompare a b).
Proof.
  assert (Hcc : forall m1 m2,
             Pos.compare_cont Eq m2 m1 = CompOpp (Pos.compare_cont Eq m1 m2)).
  { intros m1 m2. now rewrite Pos.compare_cont_antisym. }
  destruct a as [[]|[]| |[] m1 e1], b as [[]|[]| |[] m2 e2]; simpl;
    try reflexivity;
    rewrite (Z.compare_antisym e1 e2);
    destruct (e1 ?= e2)%Z; simpl; try reflexivity;
    change (PosDef.Pos.compare_cont Eq m2 m1) with (Pos.compare_cont Eq m2 m1);
    rewrite (Hcc m1 m2); reflexivity.
Qed.

Lemma ltb_not_leb (a b : float) :
  Float.ltb a b = true -> Float.leb b a = false.
Proof.
  unfold Float.ltb, Float.leb, SFltb, SFleb. rewrite (compare_antisym a b).
  destruct (SFcompare a b) as [[]|]; simpl; congruence.
Qed.

Lemma leb_not_ltb (a b : float) :
  Float.leb a b = true -> Float.ltb b a = false.
Proof.
  unfold Float.ltb, Float.leb, SFltb, SFleb. rewrite (compare_antisym a b).
  destruct (SFcompare a b) as [[]|]; simpl; congruence.
Qed.

(** ** Errors and where they are reported *)

Lemma invalid_of_error {A} (r : Pydantic.validation A) (e : Pydantic.error) :
  In e (Pydantic.errors r) ->
  exists errs, r = Pydantic.Invalid errs /\ In e errs.
Proof.
  destruct r as [a|errs]; simpl; [tauto|eauto].
Qed.

Lemma errors_required_loc {A} (k : string) (f : Pydantic.validator A)
    (d : dict) (e : Pydantic.error) :
  In e (Pydantic.errors (Pydantic.required k f d)) ->
  exists tl, Pydantic.loc e = Pydantic.Key k :: tl.
Proof.
  unfold Pydantic.required. destruct (Dict.get k d).
  - apply errors_at_loc.
  - simpl. intros [<-|[]]. simpl. eauto.
Qed.

Lemma errors_with_default_loc {A} (k : string) (f : Pydantic.validator A)
    (a : A) (d : dict) (e : Pydantic.error) :
  In e (Pydantic.errors (Pydantic.with_default k f a d)) ->
  exists tl, Pydantic.loc e = Pydantic.Key k :: tl.
Proof.
  unfold Pydantic.with_default. destruct (Dict.get k d).
  - apply errors_at_loc.
  - simpl. tauto.
Qed.

(** ** Invoices without items, items without quantity *)

(** An invoice without items is created, stored and returned. *)
Lemma empty_invoice_is_accepted :
  Main.post_invoices cpython_3_11 1700%Z empty_invoice []
  = (Main.R200
       [("id", VStr "0"); ("customer_id", VStr "C1"); ("items", VList []);
        ("currency", VStr "IDR"); ("status", VStr "draft");
        ("created_at", VDatetime 1700%Z); ("total", VInt 0)],
     [ {| MemoryStore.collection := "invoice";
          MemoryStore.id := "0";
          MemoryStore.data :=
            [("customer_id", VStr "C1"); ("items", VList []);
             ("currency", VStr "IDR"); ("status", VStr "draft");
             ("created_at", VDatetime 1700%Z); ("total", VInt 0)] |} ]) /\
  ~ rejected_unpersisted
      (Main.post_invoices cpython_3_11 1700%Z empty_invoice []) [].
Proof.
  split; [reflexivity|].
  intros [errs H]. vm_compute in H. discriminate H.
Qed.

(** C2, as the code has it.  A body that fails validation is answered
    with its validation errors and the store is left as it was.  An
    empty list of items does not fail validation: the request model is
    built with no item, and the invoice that comes back has no item and
    the total 0.  The [InvoiceItem] of the schema registry turns down
    every item whose quantity is not above zero, 0 included, with a
    [greater_than] error on that field. *)
Theorem invoice_validation_boundaries :
  (forall (P : platform) (now : datetime) (body : value) (s : store P)
          (errs : list Pydantic.error),
      Main.CreateInvoice.validate P body = Pydantic.Invalid errs ->
      Main.post_invoices P now body s = (Main.R422 errs, s)) /\
  (forall (P : platform) (cid : string),
      Main.CreateInvoice.validate P
        (VDict [("customer_id", VStr cid); ("items", VList [])])
      = Pydantic.Valid
          {| Main.CreateInvoice.customer_id := cid;
             Main.CreateInvoice.items := [];
             Main.CreateInvoice.currency := "IDR" |}) /\
  (forall (P : platform) (now : datetime) (cid : string) (s s' : store P)
          (doc : dict),
      Main.post_invoices P now
        (VDict [("customer_id", VStr cid); ("items", VList [])]) s
      = (Main.R200 doc, s') ->
      Dict.get "items" doc = Some (VList []) /\
      Dict.get "total" doc = Some (VInt 0)) /\
  (forall (P : platform) (d : dict) (v : value) (x : float),
      Dict.get "quantity" d = Some v ->
      Pydantic.coerce_float P v = Some x ->
      Float.leb x Float.zero = true ->
      exists errs,
        Schemas.InvoiceItem.validate P (VDict d) = Pydantic.Invalid errs /\
        In {| Pydantic.loc := [Pydantic.Key "quantity"];
              Pydantic.etype := Pydantic.greater_than |} errs).
Proof.
  split; [|split; [|split]].
  - intros P now body s errs H. unfold Main.post_invoices, Main.route.
    now rewrite H.
  - reflexivity.
  - intros P now cid s s' doc H.
    apply route_ok in H as (payload & Hv & H).
    apply create_invoice_ok in H as (inv_id & ->).
    change (Pydantic.Valid
              {| Main.CreateInvoice.customer_id := cid;
                 Main.CreateInvoice.items := [];
                 Main.CreateInvoice.currency := "IDR" |}
            = Pydantic.Valid payload) in Hv.
    injection Hv as <-. split; reflexivity.
  - intros P d v x Hget Hco Hle.
    apply invalid_of_error.
    unfold Schemas.InvoiceItem.validate, Pydantic.model,
      Schemas.InvoiceItem.fields.
    rewrite !errors_ap, !in_app_iff. left. left. right.
    unfold Pydantic.required. rewrite Hget.
    unfold Pydantic.gt, Pydantic.check, Pydantic.float_.
    rewrite Hco, (leb_not_ltb _ _ Hle). simpl. now left.
Qed.

Lemma invoice_validation_boundaries_witness :
  Main.post_invoices cpython_3_11 1700%Z (VDict [("items", VList [])]) []
  = (Main.R422 [ {| Pydantic.loc := [Pydantic.Key "customer_id"];
                    Pydantic.etype := Pydantic.missing |} ], []) /\
  (Dict.get "items"
     (response_doc (fst (Main.post_invoices cpython_3_11 1700%Z empty_invoice [])))
   = Some (VList []) /\
   Dict.get "total"
     (response_doc (fst (Main.post_invoices cpython_3_11 1700%Z empty_invoice [])))
   = Some (VInt 0)) /\
  exists errs,
    Schemas.InvoiceItem.validate cpython_3_11
      (VDict [("product_id", VStr "P1"); ("name", VStr "Widget");
              ("quantity", VInt 0); ("price", VFloat (Float.of_Z 100))])
    = Pydantic.Invalid errs /\
    In {| Pydantic.loc := [Pydantic.Key "quantity"];
          Pydantic.etype := Pydantic.greater_than |} errs.
Proof.
  destruct invoice_validation_boundaries as [Hrej [_ [Hempty Hqty]]].
  split; [|split].
  - apply (Hrej cpython_3_11). reflexivity.
  - apply (Hempty cpython_3_11 1700%Z "C1" []
             (snd (Main.post_invoices cpython_3_11 1700%Z empty_invoice []))).
    vm_compute. reflexivity.
  - apply (Hqty cpython_3_11 _ (VInt 0) Float.zero); reflexivity.
Defined.

(** ** Malformed e-mail addresses *)

(** The [Customer] of the schema registry turns down an address its
    e-mail validator does not accept. *)
Lemma schema_customer_rejects_email (P : platform) (d : dict) (s : string) :
  Dict.get "email" d = Some (VStr s) ->
  validate_email P s = None ->
  exists errs,
    Schemas.Customer.validate P (VDict d) = Pydantic.Invalid errs /\
    In {| Pydantic.loc := [Pydantic.Key "email"];
          Pydantic.etype := Pydantic.value_error |} errs.
Proof.
  intros Hget Hbad. apply invalid_of_error.
  unfold Schemas.Customer.validate, Pydantic.model, Schemas.Customer.fields.
  rewrite !errors_ap, !in_app_iff. do 6 left. right.
  unfold Pydantic.with_default. rewrite Hget. simpl. rewrite Hbad.
  simpl. now left.
Qed.

(** C3.  [POST /customers] validates the body against [CreateCustomer],
    whose e-mail is a plain optional string: the body
    {name: "Ann", email: "not-an-email"} passes, on every platform, and
    the customer is stored and returned with that address, while the
    [Customer] model of the schema registry reports a [value_error] on
    the same body. *)
Theorem malformed_email_is_accepted :
  (forall P : platform,
      Main.CreateCustomer.validate ann_malformed_email
      = Pydantic.Valid
          {| Main.CreateCustomer.name := "Ann";
             Main.CreateCustomer.email := Some "not-an-email";
             Main.CreateCustomer.phone := None |} /\
      forall (now : datetime) (s : store P),
        fst (Main.post_customers P now ann_malformed_email s)
        = match fst (create_document P "customer"
                       [("name", VStr "Ann"); ("email", VStr "not-an-email");
                        ("phone", VNone); ("created_at", VDatetime now)] s) with
          | Py.Ok cid =>
              Main.R200
                [("id", VStr cid); ("name", VStr "Ann");
                 ("email", VStr "not-an-email"); ("phone", VNone);
                 ("created_at", VDatetime now)]
          | Py.Raise e => Main.R500 e
          end) /\
  Main.post_customers cpython_3_11 1700%Z ann_malformed_email []
  = (Main.R200
       [("id", VStr "0"); ("name", VStr "Ann");
        ("email", VStr "not-an-email"); ("phone", VNone);
        ("created_at", VDatetime 1700%Z)],
     [ {| MemoryStore.collection := "customer";
          MemoryStore.id := "0";
          MemoryStore.data :=
            [("name", VStr "Ann"); ("email", VStr "not-an-email");
             ("phone", VNone); ("created_at", VDatetime 1700%Z)] |} ]) /\
  Schemas.Customer.validate cpython_3_11 ann_malformed_email
  = Pydantic.Invalid [ {| Pydantic.loc := [Pydantic.Key "email"];
                          Pydantic.etype := Pydantic.value_error |} ].
Proof.
  split; [|split; reflexivity].
  intros P. split; [reflexivity|].
  intros now s. unfold Main.post_customers, Main.route. simpl.
  unfold Main.create_customer. simpl.
  destruct (create_document P _ _ s) as [[cid|e] s']; reflexivity.
Qed.

(** ** Journal lines *)

(** A journal line with a debit of -5.0 is accepted as it is. *)
Lemma negative_debit_is_accepted :
  Schemas.JournalLine.validate cpython_3_11 negative_debit_line
  = Pydantic.Valid negative_debit_record /\
  Float.ltb (Schemas.JournalLine.debit negative_debit_record) Float.zero
  = true.
Proof. split; reflexivity. Qed.

(** C6, as the code has it.  A [JournalLine] takes 0.0 for a debit or a
    credit that is omitted.  It declares no bound on either field: the
    debit and the credit of an accepted line are the numbers the payload
    gave, and a line with any two floats, negative ones included, is
    accepted with exactly those. *)
Theorem journal_line_defaults :
  (forall (P : platform) (d : dict) (j : Schemas.JournalLine.t),
      Schemas.JournalLine.validate P (VDict d) = Pydantic.Valid j ->
      match Dict.get "debit" d with
      | Some v => Pydantic.coerce_float P v = Some (Schemas.JournalLine.debit j)
      | None => Schemas.JournalLine.debit j = Float.zero
      end /\
      match Dict.get "credit" d with
      | Some v => Pydantic.coerce_float P v = Some (Schemas.JournalLine.credit j)
      | None => Schemas.JournalLine.credit j = Float.zero
      end) /\
  (forall (P : platform) (code : string) (x y : float),
      Schemas.JournalLine.validate P
        (VDict [("account_code", VStr code); ("debit", VFloat x);
                ("credit", VFloat y)])
      = Pydantic.Valid
          {| Schemas.JournalLine.account_code := code;
             Schemas.JournalLine.debit := x;
             Schemas.JournalLine.credit := y;
             Schemas.JournalLine.memo := None |}).
Proof.
  split; [|reflexivity].
  intros P d j H.
  unfold Schemas.JournalLine.validate, Pydantic.model,
    Schemas.JournalLine.fields in H.
  valid_fields H. simpl.
  unfold Pydantic.with_default in *.
  split.
  - destruct (Dict.get "debit" d) as [v|].
    + apply at_loc_valid in Hfield1. now apply float_valid.
    + now injection Hfield1 as <-.
  - destruct (Dict.get "credit" d) as [v|].
    + apply at_loc_valid in Hfield0. now apply float_valid.
    + now injection Hfield0 as <-.
Qed.

Lemma journal_line_defaults_witness :
  Pydantic.coerce_float cpython_3_11 (VFloat (Float.of_decimal (-5) 0))
  = Some (Schemas.JournalLine.debit negative_debit_record) /\
  Schemas.JournalLine.credit negative_debit_record = Float.zero.
Proof.
  destruct journal_line_defaults as [Hdefaults _].
  apply (Hdefaults cpython_3_11
           [("account_code", VStr "1000");
            ("debit", VFloat (Float.of_decimal (-5) 0))]
           negative_debit_record).
  reflexivity.
Defined.

(** ** Supplier ratings *)

(** C7.  [Supplier] accepts a rating of exactly 0 and of exactly 5,
    given as an integer or as a float.  Whatever else the payload holds,
    a rating that converts to a number below 0 or above 5 makes
    validation fail with an error on the rating; 5.01 is reported as
    [less_than_equal]. *)
Theorem supplier_rating_bounds :
  (forall (P : platform) (n : string) (r : value),
      In r [VInt 0; VFloat Float.zero; VInt 5; VFloat (Float.of_Z 5)] ->
      exists x,
        Pydantic.coerce_float P r = Some x /\
        Schemas.Supplier.validate P (VDict [("name", VStr n); ("rating", r)])
        = Pydantic.Valid
            {| Schemas.Supplier.name := n;
               Schemas.Supplier.email := None;
               Schemas.Supplier.phone := None;
               Schemas.Supplier.address := None;
               Schemas.Supplier.rating := Some x |}) /\
  (forall (P : platform) (d : dict) (v : value) (x : float),
      Dict.get "rating" d = Some v ->
      v <> VNone ->
      Pydantic.coerce_float P v = Some x ->
      Float.ltb x Float.zero = true \/ Float.ltb (Float.of_Z 5) x = true ->
      exists errs e,
        Schemas.Supplier.validate P (VDict d) = Pydantic.Invalid errs /\
        In e errs /\ Pydantic.loc e = [Pydantic.Key "rating"]) /\
  (forall (P : platform) (n : string),
      Schemas.Supplier.validate P
        (VDict [("name", VStr n); ("rating", VFloat (Float.of_decimal 501 2))])
      = Pydantic.Invalid [ {| Pydantic.loc := [Pydantic.Key "rating"];
                              Pydantic.etype := Pydantic.less_than_equal |} ]).
Proof.
  split; [|split; [|reflexivity]].
  - intros P n r [<-|[<-|[<-|[<-|[]]]]]; eexists; split; reflexivity.
  - intros P d v x Hget Hnone Hco Hout.
    assert (Hinner : exists t,
               Pydantic.ge Float.zero
                 (Pydantic.le (Float.of_Z 5) (Pydantic.float_ P)) v
               = Pydantic.Invalid [ {| Pydantic.loc := [];
                                       Pydantic.etype := t |} ]).
    { unfold Pydantic.ge, Pydantic.le, Pydantic.check, Pydantic.float_.
      rewrite Hco. destruct Hout as [Hlow|Hhigh].
      - destruct (Float.leb x (Float.of_Z 5)).
        + rewrite (ltb_not_leb _ _ Hlow). now eexists.
        + now eexists.
      - rewrite (ltb_not_leb _ _ Hhigh). now eexists. }
    destruct Hinner as (t & Hinner).
    assert (Hin : In {| Pydantic.loc := [Pydantic.Key "rating"];
                        Pydantic.etype := t |}
                    (Pydantic.errors (Schemas.Supplier.validate P (VDict d)))).
    { unfold Schemas.Supplier.validate, Pydantic.model,
        Schemas.Supplier.fields.
      rewrite !errors_ap, !in_app_iff. right.
      unfold Pydantic.with_default. rewrite Hget.
      unfold Pydantic.optional.
      destruct v; try contradiction; rewrite Hinner; simpl; now left. }
    apply invalid_of_error in Hin as (errs & Hv & Hin).
    exists errs. eexists. repeat split; eauto.
Qed.

Lemma supplier_rating_bounds_witness :
  (exists x,
      Pydantic.coerce_float cpython_3_11 (VInt 5) = Some x /\
      Schemas.Supplier.validate cpython_3_11
        (VDict [("name", VStr "Acme"); ("rating", VInt 5)])
      = Pydantic.Valid
          {| Schemas.Supplier.name := "Acme";
             Schemas.Supplier.email := None;
             Schemas.Supplier.phone := None;
             Schemas.Supplier.address := None;
             Schemas.Supplier.rating := Some x |}) /\
  exists errs e,
    Schemas.Supplier.validate cpython_3_11
      (VDict [("name", VStr "Acme");
              ("rating", VFloat (Float.of_decimal 501 2))])
    = Pydantic.Invalid errs /\
    In e errs /\ Pydantic.loc e = [Pydantic.Key "rating"].
Proof.
  destruct supplier_rating_bounds as [Hedge [Hout _]].
  split.
  - apply (Hedge cpython_3_11 "Acme" (VInt 5)). simpl. tauto.
  - apply (Hout cpython_3_11 _ (VFloat (Float.of_decimal 501 2))
             (Float.of_decimal 501 2)).
    + reflexivity.
    + discriminate.
    + reflexivity.
    + right. reflexivity.
Defined.

(** ** List fields with a default factory *)

Lemma with_default_set_default {A} (k : string) (f : Pydantic.validator A)
    (a : A) (v : value) (d : dict) :
  Dict.get k d = None ->
  f v = Pydantic.Valid a ->
  Pydantic.with_default k f a (Dict.set k v d) = Pydantic.with_default k f a d.
Proof.
  intros Hget Hv. unfold Pydantic.with_default.
  now rewrite get_set_same, Hget, Hv.
Qed.

(** Fields other than [k] do not see an assignment to [k]. *)
Ltac frame_set k :=
  repeat match goal with
         | |- context [Pydantic.required ?k' ?f (Dict.set k ?v ?d)] =>
             rewrite (required_set_other k k' v f d) by discriminate
         | |- context [Pydantic.with_default ?k' ?f ?a (Dict.set k ?v ?d)] =>
             rewrite (with_default_set_other k k' v f a d) by discriminate
         end.

Ltac other_field Hin Hloc :=
  first [ apply errors_required_loc in Hin as (? & Hin)
        | apply errors_with_default_loc in Hin as (? & Hin) ];
  rewrite Hin in Hloc; discriminate Hloc.

(** C8.  [Customer.tags] and [Role.permissions] are the list fields
    built by a default factory.  For a payload without the key:
    validation reports no error at that field (so no missing-field
    error), the field of the validated record is the empty list, and the
    outcome is the one of the same payload with the key set to an empty
    list.  A payload that holds nothing but a valid name is accepted. *)
Theorem default_factory_lists :
  (forall (P : platform) (d : dict),
      Dict.get "tags" d = None ->
      (forall c, Schemas.Customer.validate P (VDict d) = Pydantic.Valid c ->
                 Schemas.Customer.tags c = []) /\
      (forall e tl,
          In e (Pydantic.errors (Schemas.Customer.validate P (VDict d))) ->
          Pydantic.loc e <> Pydantic.Key "tags" :: tl) /\
      Schemas.Customer.validate P (VDict (Dict.set "tags" (VList []) d))
      = Schemas.Customer.validate P (VDict d)) /\
  (forall (P : platform) (n : string),
      Schemas.Customer.validate P (VDict [("name", VStr n)])
      = Pydantic.Valid
          {| Schemas.Customer.name := n;
             Schemas.Customer.email := None;
             Schemas.Customer.phone := None;
             Schemas.Customer.company := None;
             Schemas.Customer.address := None;
             Schemas.Customer.tags := [];
             Schemas.Customer.source := None;
             Schemas.Customer.assigned_to := None |}) /\
  (forall d : dict,
      Dict.get "permissions" d = None ->
      (forall r, Schemas.Role.validate (VDict d) = Pydantic.Valid r ->
                 Schemas.Role.permissions r = []) /\
      (forall e tl,
          In e (Pydantic.errors (Schemas.Role.validate (VDict d))) ->
          Pydantic.loc e <> Pydantic.Key "permissions" :: tl) /\
      Schemas.Role.validate (VDict (Dict.set "permissions" (VList []) d))
      = Schemas.Role.validate (VDict d)) /\
  (forall n : string,
      In n Schemas.Role.names ->
      Schemas.Role.validate (VDict [("name", VStr n)])
      = Pydantic.Valid {| Schemas.Role.name := n;
                          Schemas.Role.permissions := [] |}).
Proof.
  split; [|split; [reflexivity|split]].
  - intros P d Hget. split; [|split].
    + intros c H.
      unfold Schemas.Customer.validate, Pydantic.model,
        Schemas.Customer.fields in H.
      valid_fields H. simpl.
      unfold Pydantic.with_default in Hfield1. rewrite Hget in Hfield1.
      now injection Hfield1 as <-.
    + intros e tl Hin Hloc.
      unfold Schemas.Customer.validate, Pydantic.model,
        Schemas.Customer.fields in Hin.
      rewrite !errors_ap, !in_app_iff in Hin.
      destruct Hin as [[[[[[[[Hin|Hin]|Hin]|Hin]|Hin]|Hin]|Hin]|Hin]|Hin];
        [destruct Hin| | | | | | | |]; try other_field Hin Hloc.
      unfold Pydantic.with_default in Hin. rewrite Hget in Hin.
      destruct Hin.
    + unfold Schemas.Customer.validate, Pydantic.model,
        Schemas.Customer.fields.
      frame_set "tags".
      now rewrite (with_default_set_default "tags" _ _ _ _ Hget) by reflexivity.
  - intros d Hget. split; [|split].
    + intros r H.
      unfold Schemas.Role.validate, Pydantic.model, Schemas.Role.fields in H.
      valid_fields H. simpl.
      unfold Pydantic.with_default in Hfield. rewrite Hget in Hfield.
      now injection Hfield as <-.
    + intros e tl Hin Hloc.
      unfold Schemas.Role.validate, Pydantic.model, Schemas.Role.fields in Hin.
      rewrite !errors_ap, !in_app_iff in Hin.
      destruct Hin as [[Hin|Hin]|Hin];
        [destruct Hin| |]; try other_field Hin Hloc.
      unfold Pydantic.with_default in Hin. rewrite Hget in Hin.
      destruct Hin.
    + unfold Schemas.Role.validate, Pydantic.model, Schemas.Role.fields.
      frame_set "permissions".
      now rewrite (with_default_set_default "permissions" _ _ _ _ Hget)
        by reflexivity.
  - intros n Hn. simpl in Hn.
    repeat (destruct Hn as [<-|Hn]; [reflexivity|]). destruct Hn.
Qed.

Lemma default_factory_lists_witness :
  (forall c,
      Schemas.Customer.validate cpython_3_11 (VDict [("name", VStr "Ann")])
      = Pydantic.Valid c ->
      Schemas.Customer.tags c = []) /\
  Schemas.Role.validate (VDict [("name", VStr "admin")])
  = Pydantic.Valid {| Schemas.Role.name := "admin";
                      Schemas.Role.permissions := [] |}.
Proof.
  destruct default_factory_lists as [Htags [_ [_ Hrole]]].
  split.
  - apply (Htags cpython_3_11 [("name", VStr "Ann")]). reflexivity.
  - apply (Hrole "admin"). simpl. tauto.
Defined.

(** ** Documents returned for customers and products *)

Lemma str_valid (v : value) (s : string) :
  Pydantic.str v = Pydantic.Valid s -> v = VStr s.
Proof.
  destruct v; simpl; intros H; try discriminate H. now injection H as ->.
Qed.

Lemma optional_str_valid (v : value) (o : option string) :
  Pydantic.optional Pydantic.str v = Pydantic.Valid o ->
  Pydantic.dump_option VStr o = v.
Proof.
  destruct v; simpl; intros H; try discriminate H;
    now injection H as <-.
Qed.

Lemma create_customer_ok (P : platform) (now : datetime)
    (payload : Main.CreateCustomer.t) (s s' : store P) (doc : dict) :
  Main.create_customer P now payload s = (Py.Ok doc, s') ->
  exists cid,
    doc = [("id", VStr cid);
           ("name", VStr (Main.CreateCustomer.name payload));
           ("email", Pydantic.dump_option VStr (Main.CreateCustomer.email payload));
           ("phone", Pydantic.dump_option VStr (Main.CreateCustomer.phone payload));
           ("created_at", VDatetime now)].
Proof.
  unfold Main.create_customer.
  destruct (create_document P _ _ s) as [[cid|e] s0]; intros H;
    [|discriminate].
  injection H as <- <-. now exists cid.
Qed.

Lemma create_product_ok (P : platform) (now : datetime)
    (payload : Main.CreateProduct.t) (s s' : store P) (doc : dict) :
  Main.create_product P now payload s = (Py.Ok doc, s') ->
  exists pid,
    doc = [("id", VStr pid);
           ("sku", VStr (Main.CreateProduct.sku payload));
           ("name", VStr (Main.CreateProduct.name payload));
           ("price", VFloat (Main.CreateProduct.price payload));
           ("created_at", VDatetime now)].
Proof.
  unfold Main.create_product.
  destruct (create_document P _ _ s) as [[pid|e] s0]; intros H;
    [|discriminate].
  injection H as <- <-. now exists pid.
Qed.

(** For the body {name: "Ann", company: "X"} the company is not
    returned, while an e-mail and a phone the body never held are. *)
Lemma unknown_field_is_dropped :
  Main.post_customers cpython_3_11 1700%Z (VDict ann_with_company) []
  = (Main.R200
       [("id", VStr "0"); ("name", VStr "Ann"); ("email", VNone);
        ("phone", VNone); ("created_at", VDatetime 1700%Z)],
     [ {| MemoryStore.collection := "customer";
          MemoryStore.id := "0";
          MemoryStore.data :=
            [("name", VStr "Ann"); ("email", VNone); ("phone", VNone);
             ("created_at", VDatetime 1700%Z)] |} ]) /\
  ~ echoes_payload ann_with_company
      (response_doc
         (fst (Main.post_customers cpython_3_11 1700%Z
                 (VDict ann_with_company) []))).
Proof.
  split; [reflexivity|].
  intros [Hkept _]. specialize (Hkept "company" (VStr "X") eq_refl).
  vm_compute in Hkept. discriminate Hkept.
Qed.

(** C10, as the code has it.  The document [POST /customers] returns
    has exactly the keys id, name, email, phone, created_at, in this
    order, and the one of [POST /products] exactly id, sku, name, price,
    created_at.  A field of the request model that the body holds comes
    back with the submitted value (the price as the float it converts
    to); an e-mail or a phone the body does not hold comes back as
    [None]; "created_at" is the instant the server read and "id" the
    string the store assigned.  Keys of the body that the request model
    does not declare are not among the returned ones. *)
Theorem created_document_fields :
  (forall (P : platform) (now : datetime) (d : dict) (s s' : store P)
          (doc : dict),
      Main.post_customers P now (VDict d) s = (Main.R200 doc, s') ->
      Dict.keys doc = ["id"; "name"; "email"; "phone"; "created_at"] /\
      (forall k v, In k ["name"; "email"; "phone"] ->
                   Dict.get k d = Some v -> Dict.get k doc = Some v) /\
      (forall k, In k ["email"; "phone"] ->
                 Dict.get k d = None -> Dict.get k doc = Some VNone) /\
      Dict.get "created_at" doc = Some (VDatetime now) /\
      exists cid, Dict.get "id" doc = Some (VStr cid)) /\
  (forall (P : platform) (now : datetime) (d : dict) (s s' : store P)
          (doc : dict),
      Main.post_products P now (VDict d) s = (Main.R200 doc, s') ->
      Dict.keys doc = ["id"; "sku"; "name"; "price"; "created_at"] /\
      (forall k v, In k ["sku"; "name"] ->
                   Dict.get k d = Some v -> Dict.get k doc = Some v) /\
      (exists v x, Dict.get "price" d = Some v /\
                   Pydantic.coerce_float P v = Some x /\
                   Dict.get "price" doc = Some (VFloat x)) /\
      Dict.get "created_at" doc = Some (VDatetime now) /\
      exists pid, Dict.get "id" doc = Some (VStr pid)).
Proof.
  split.
  - intros P now d s s' doc H.
    apply route_ok in H as (payload & Hv & H).
    apply create_customer_ok in H as (cid & ->).
    unfold Main.CreateCustomer.validate, Pydantic.model,
      Main.CreateCustomer.fields in Hv.
    valid_fields Hv.
    apply required_valid in Hfield1 as (vn & Hn & Hname).
    apply str_valid in Hname. subst vn.
    apply with_default_valid in Hfield0, Hfield.
    split; [reflexivity|]. split; [|split; [|split]].
    + intros k v [<-|[<-|[<-|[]]]] Hk; simpl.
      * congruence.
      * rewrite Hk in Hfield0. apply optional_str_valid in Hfield0.
        congruence.
      * rewrite Hk in Hfield. apply optional_str_valid in Hfield.
        congruence.
    + intros k [<-|[<-|[]]] Hk; simpl.
      * rewrite Hk in Hfield0. now subst.
      * rewrite Hk in Hfield. now subst.
    + reflexivity.
    + now exists cid.
  - intros P now d s s' doc H.
    apply route_ok in H as (payload & Hv & H).
    apply create_product_ok in H as (pid & ->).
    unfold Main.CreateProduct.validate, Pydantic.model,
      Main.CreateProduct.fields in Hv.
    valid_fields Hv.
    apply required_valid in Hfield1 as (vs & Hs & Hsku).
    apply required_valid in Hfield0 as (vn & Hn & Hname).
    apply required_valid in Hfield as (vp & Hp & Hprice).
    apply str_valid in Hsku, Hname. subst vs vn.
    apply float_valid in Hprice.
    split; [reflexivity|]. split; [|split; [|split]].
    + intros k v [<-|[<-|[]]] Hk; simpl; congruence.
    + now exists vp, a.
    + reflexivity.
    + now exists pid.
Qed.

Lemma created_document_fields_witness :
  Dict.keys
    (response_doc
       (fst (Main.post_customers cpython_3_11 1700%Z (VDict ann_with_company) [])))
  = ["id"; "name"; "email"; "phone"; "created_at"] /\
  Dict.keys
    (response_doc
       (fst (Main.post_products cpython_3_11 1700%Z
               (VDict [("sku", VStr "W-1"); ("name", VStr "Widget");
                       ("price", VInt 100)]) [])))
  = ["id"; "sku"; "name"; "price"; "created_at"].
Proof.
  destruct created_document_fields as [Hcustomers Hproducts].
  split.
  - apply (Hcustomers cpython_3_11 1700%Z ann_with_company []
             (snd (Main.post_customers cpython_3_11 1700%Z
                     (VDict ann_with_company) []))).
    vm_compute. reflexivity.
  - apply (Hproducts cpython_3_11 1700%Z
             [("sku", VStr "W-1"); ("name", VStr "Widget"); ("price", VInt 100)]
             []
             (snd (Main.post_products cpython_3_11 1700%Z
                     (VDict [("sku", VStr "W-1"); ("name", VStr "Widget");
                             ("price", VInt 100)]) []))).
    vm_compute. reflexivity.
Defined.

(** * Further properties *)

(** ** What the request models accept *)

Lemma is_valid_ap {A B} (f : Pydantic.validation (A -> B))
    (x : Pydantic.validation A) :
  Accepts.is_valid (f <*> x) = Accepts.is_valid f && Accepts.is_valid x.
Proof. destruct f, x; reflexivity. Qed.

Lemma is_valid_at_loc {A} (l : Pydantic.loc_item) (r : Pydantic.validation A) :
  Accepts.is_valid (Pydantic.at_loc l r) = Accepts.is_valid r.
Proof. destruct r; reflexivity. Qed.

Lemma is_valid_required {A} (k : string) (f : Pydantic.validator A)
    (d : dict) :
  Accepts.is_valid (Pydantic.required k f d)
  = match Dict.get k d with
    | Some v => Accepts.is_valid (f v)
    | None => false
    end.
Proof.
  unfold Pydantic.required. destruct (Dict.get k d); [|reflexivity].
  apply is_valid_at_loc.
Qed.

Lemma is_valid_with_default {A} (k : string) (f : Pydantic.validator A)
    (a : A) (d : dict) :
  Accepts.is_valid (Pydantic.with_default k f a d)
  = match Dict.get k d with
    | Some v => Accepts.is_valid (f v)
    | None => true
    end.
Proof.
  unfold Pydantic.with_default. destruct (Dict.get k d); [|reflexivity].
  apply is_valid_at_loc.
Qed.

Lemma is_valid_str (o : option value) :
  match o with
  | Some v => Accepts.is_valid (Pydantic.str v)
  | None => false
  end = Accepts.is_string o.
Proof. destruct o as [[]|]; reflexivity. Qed.

Lemma is_valid_str_default (o : option value) :
  match o with
  | Some v => Accepts.is_valid (Pydantic.str v)
  | None => true
  end = Accepts.absent_or_string o.
Proof. destruct o as [[]|]; reflexivity. Qed.

Lemma is_valid_optional_str (o : option value) :
  match o with
  | Some v => Accepts.is_valid (Pydantic.optional Pydantic.str v)
  | None => true
  end = Accepts.absent_null_or_string o.
Proof. destruct o as [[]|]; reflexivity. Qed.

Lemma is_valid_float (P : platform) (v : value) :
  Accepts.is_valid (Pydantic.float_ P v) = Accepts.is_number P (Some v).
Proof.
  unfold Pydantic.float_, Accepts.is_number.
  destruct (Pydantic.coerce_float P v); reflexivity.
Qed.

Lemma is_valid_list_items {A} (f : Pydantic.validator A) (g : value -> bool) :
  (forall v, Accepts.is_valid (f v) = g v) ->
  forall vs i, Accepts.is_valid (Pydantic.list_items f i vs) = forallb g vs.
Proof.
  intros H vs. induction vs as [|v vs IH]; intros i; [reflexivity|].
  cbn [Pydantic.list_items forallb].
  now rewrite !is_valid_ap, is_valid_at_loc, H, IH.
Qed.

Lemma item_is_valid (P : platform) (v : value) :
  Accepts.is_valid (Main.InvoiceItem.validate P v) = Accepts.item P v.
Proof.
  destruct v as [| | | | | |items|d]; try reflexivity.
  unfold Main.InvoiceItem.validate, Pydantic.model, Main.InvoiceItem.fields,
    Accepts.item.
  rewrite !is_valid_ap, !is_valid_required, is_valid_with_default.
  rewrite !is_valid_str. cbn [Accepts.is_valid andb].
  unfold Accepts.absent_or_number.
  destruct (Dict.get "quantity" d), (Dict.get "price" d),
    (Dict.get "tax_rate" d);
    rewrite ?is_valid_float; rewrite ?andb_false_r; reflexivity.
Qed.

Lemma rejected_route (P : platform) {A} (validate : Pydantic.validator A)
    (handler : A -> store P -> Py.result dict * store P)
    (body : value) (s : store P) :
  Accepts.rejected (fst (Main.route P validate handler body s))
  = negb (Accepts.is_valid (validate body)).
Proof.
  unfold Main.route. destruct (validate body) as [m|errs]; [|reflexivity].
  destruct (handler m s) as [[doc|e] s'];
    [destruct (Py.json_compliant (VDict doc))|]; reflexivity.
Qed.

(** X1.  [POST /customers] accepts a body exactly when it is an object
    whose "name" is a string and whose "email" and "phone" are each
    absent, null or a string; every other body is answered with
    validation errors.  Nothing else in the body matters. *)
Theorem customers_acceptance (P : platform) (now : datetime) (body : value)
    (s : store P) :
  Accepts.is_valid (Main.CreateCustomer.validate body) = Accepts.customer body /\
  Accepts.rejected (fst (Main.post_customers P now body s))
  = negb (Accepts.customer body).
Proof.
  assert (H : Accepts.is_valid (Main.CreateCustomer.validate body)
              = Accepts.customer body).
  { destruct body as [| | | | | |items|d]; try reflexivity.
    unfold Main.CreateCustomer.validate, Pydantic.model,
      Main.CreateCustomer.fields, Accepts.customer.
    rewrite !is_valid_ap, is_valid_required, !is_valid_with_default.
    now rewrite is_valid_str, !is_valid_optional_str. }
  split; [exact H|].
  unfold Main.post_customers. now rewrite rejected_route, H.
Qed.

(** X2.  [POST /products] accepts a body exactly when it is an object
    whose "sku" and "name" are strings and whose "price" is present and
    converts to a float. *)
Theorem products_acceptance (P : platform) (now : datetime) (body : value)
    (s : store P) :
  Accepts.is_valid (Main.CreateProduct.validate P body)
  = Accepts.product P body /\
  Accepts.rejected (fst (Main.post_products P now body s))
  = negb (Accepts.product P body).
Proof.
  assert (H : Accepts.is_valid (Main.CreateProduct.validate P body)
              = Accepts.product P body).
  { destruct body as [| | | | | |items|d]; try reflexivity.
    unfold Main.CreateProduct.validate, Pydantic.model,
      Main.CreateProduct.fields, Accepts.product.
    rewrite !is_valid_ap, !is_valid_required.
    rewrite !is_valid_str. cbn [Accepts.is_valid andb].
    destruct (Dict.get "price" d); [now rewrite is_valid_float|reflexivity]. }
  split; [exact H|].
  unfold Main.post_products. now rewrite rejected_route, H.
Qed.

(** X3.  [POST /invoices] accepts a body exactly when it is an object
    whose "customer_id" is a string, whose "items" is a list of objects
    that each have string "product_id" and "name", a "quantity" and a
    "price" that convert to floats and a "tax_rate" that is absent or
    converts to a float, and whose "currency" is absent or a string.
    There is no condition on the length of the list or on the sign of
    the numbers. *)
Theorem invoices_acceptance (P : platform) (now : datetime) (body : value)
    (s : store P) :
  Accepts.is_valid (Main.CreateInvoice.validate P body)
  = Accepts.invoice P body /\
  Accepts.rejected (fst (Main.post_invoices P now body s))
  = negb (Accepts.invoice P body).
Proof.
  assert (H : Accepts.is_valid (Main.CreateInvoice.validate P body)
              = Accepts.invoice P body).
  { destruct body as [| | | | | |items|d]; try reflexivity.
    unfold Main.CreateInvoice.validate, Pydantic.model,
      Main.CreateInvoice.fields, Accepts.invoice.
    rewrite !is_valid_ap, !is_valid_required, is_valid_with_default.
    rewrite is_valid_str, is_valid_str_default. cbn [Accepts.is_valid andb].
    do 2 f_equal.
    destruct (Dict.get "items" d) as [[| | | | | |its|d']|]; try reflexivity.
    unfold Pydantic.list_of.
    apply is_valid_list_items, item_is_valid. }
  split; [exact H|].
  unfold Main.post_invoices. now rewrite rejected_route, H.
Qed.

(** ** Where validation errors are reported *)

Lemma route_rejects (P : platform) {A} (validate : Pydantic.validator A)
    (handler : A -> store P -> Py.result dict * store P)
    (body : value) (s : store P) (e : Pydantic.error) :
  In e (Pydantic.errors (validate body)) ->
  exists errs,
    Main.route P validate handler body s = (Main.R422 errs, s) /\ In e errs.
Proof.
  intros H. apply invalid_of_error in H as (errs & Hv & Hin).
  exists errs. unfold Main.route. now rewrite Hv.
Qed.

Lemma errors_required_missing {A} (k : string) (f : Pydantic.validator A)
    (d : dict) :
  Dict.get k d = None ->
  In {| Pydantic.loc := [Pydantic.Key k]; Pydantic.etype := Pydantic.missing |}
     (Pydantic.errors (Pydantic.required k f d)).
Proof.
  intros H. unfold Pydantic.required. rewrite H. simpl. now left.
Qed.

(** X4.  A body that lacks a required field of the request model is
    answered with validation errors, one of which is a [missing] error
    located at that field, and the store is left as it was.  The
    required fields are "name" for customers, "sku", "name" and "price"
    for products, "customer_id" and "items" for invoices.  Each lacking
    field gets its own error in the same answer. *)
Theorem missing_required_field :
  forall (P : platform) (now : datetime) (d : dict) (k : string)
         (s : store P),
    Dict.get k d = None ->
    (k = "name" ->
     exists errs,
       Main.post_customers P now (VDict d) s = (Main.R422 errs, s) /\
       In {| Pydantic.loc := [Pydantic.Key k];
             Pydantic.etype := Pydantic.missing |} errs) /\
    (In k ["sku"; "name"; "price"] ->
     exists errs,
       Main.post_products P now (VDict d) s = (Main.R422 errs, s) /\
       In {| Pydantic.loc := [Pydantic.Key k];
             Pydantic.etype := Pydantic.missing |} errs) /\
    (In k ["customer_id"; "items"] ->
     exists errs,
       Main.post_invoices P now (VDict d) s = (Main.R422 errs, s) /\
       In {| Pydantic.loc := [Pydantic.Key k];
             Pydantic.etype := Pydantic.missing |} errs).
Proof.
  intros P now d k s Hget.
  split; [|split].
  - intros ->. apply route_rejects.
    unfold Main.CreateCustomer.validate, Pydantic.model,
      Main.CreateCustomer.fields.
    rewrite !errors_ap, !in_app_iff.
    pose proof (errors_required_missing "name" Pydantic.str d Hget). tauto.
  - intros Hk. apply route_rejects.
    unfold Main.CreateProduct.validate, Pydantic.model,
      Main.CreateProduct.fields.
    rewrite !errors_ap, !in_app_iff.
    destruct Hk as [<-|[<-|[<-|[]]]].
    + pose proof (errors_required_missing "sku" Pydantic.str d Hget). tauto.
    + pose proof (errors_required_missing "name" Pydantic.str d Hget). tauto.
    + pose proof (errors_required_missing "price" (Pydantic.float_ P) d Hget).
      tauto.
  - intros Hk. apply route_rejects.
    unfold Main.CreateInvoice.validate, Pydantic.model,
      Main.CreateInvoice.fields.
    rewrite !errors_ap, !in_app_iff.
    destruct Hk as [<-|[<-|[]]].
    + pose proof (errors_required_missing "customer_id" Pydantic.str d Hget).
      tauto.
    + pose proof (errors_required_missing "items"
                    (Pydantic.list_of (Main.InvoiceItem.validate P)) d Hget).
      tauto.
Qed.

Lemma missing_required_field_witness :
  exists errs,
    Main.post_products cpython_3_11 1700%Z
      (VDict [("name", VStr "Widget")]) []
    = (Main.R422 errs, []) /\
    In {| Pydantic.loc := [Pydantic.Key "price"];
          Pydantic.etype := Pydantic.missing |} errs.
Proof.
  apply (missing_required_field cpython_3_11 1700%Z
           [("name", VStr "Widget")] "price" []).
  - reflexivity.
  - simpl. tauto.
Defined.

Lemma errors_list_items {A} (f : Pydantic.validator A) (e : Pydantic.error) :
  forall (vs : list value) (i n : nat) (v : value),
    nth_error vs n = Some v ->
    In e (Pydantic.errors (f v)) ->
    In {| Pydantic.loc := Pydantic.Idx (i + n) :: Pydantic.loc e;
          Pydantic.etype := Pydantic.etype e |}
       (Pydantic.errors (Pydantic.list_items f i vs)).
Proof.
  induction vs as [|v0 vs IH]; intros i n v Hnth He.
  - destruct n; discriminate Hnth.
  - cbn [Pydantic.list_items]. rewrite !errors_ap, !in_app_iff.
    destruct n as [|n]; simpl in Hnth.
    + injection Hnth as ->. left. right.
      rewrite Nat.add_0_r.
      destruct (f v) as [a|errs]; simpl in *; [contradiction|].
      apply in_map_iff. now exists e.
    + right. replace (i + S n) with (S i + n) by lia. eauto.
Qed.

(** X5.  When the item at position [n] of the "items" list of an
    invoice body has a validation error, [POST /invoices] answers with
    validation errors that hold this error located under
    "items", [n]; nothing is stored.  One bad line turns the whole
    invoice down, and the answer tells which line and which field. *)
Theorem invoice_item_error_location :
  forall (P : platform) (now : datetime) (d : dict) (its : list value)
         (n : nat) (v : value) (e : Pydantic.error) (s : store P),
    Dict.get "items" d = Some (VList its) ->
    nth_error its n = Some v ->
    In e (Pydantic.errors (Main.InvoiceItem.validate P v)) ->
    exists errs,
      Main.post_invoices P now (VDict d) s = (Main.R422 errs, s) /\
      In {| Pydantic.loc :=
              Pydantic.Key "items" :: Pydantic.Idx n :: Pydantic.loc e;
            Pydantic.etype := Pydantic.etype e |} errs.
Proof.
  intros P now d its n v e s Hitems Hnth He.
  apply route_rejects.
  unfold Main.CreateInvoice.validate, Pydantic.model,
    Main.CreateInvoice.fields.
  rewrite !errors_ap, !in_app_iff. left. right.
  unfold Pydantic.required. rewrite Hitems. unfold Pydantic.list_of.
  pose proof (errors_list_items (Main.InvoiceItem.validate P) e its 0 n v
                Hnth He) as H.
  simpl in H.
  destruct (Pydantic.list_items (Main.InvoiceItem.validate P) 0 its)
    as [a|errs]; simpl in *; [contradiction|].
  apply in_map_iff. eexists. split; [|exact H]. reflexivity.
Qed.

Lemma invoice_item_error_location_witness :
  exists errs,
    Main.post_invoices cpython_3_11 1700%Z (VDict two_line_invoice) []
    = (Main.R422 errs, []) /\
    In {| Pydantic.loc := [Pydantic.Key "items"; Pydantic.Idx 1;
                           Pydantic.Key "quantity"];
          Pydantic.etype := Pydantic.missing |} errs.
Proof.
  apply (invoice_item_error_location cpython_3_11 1700%Z two_line_invoice
           two_lines 1 bolt_without_quantity
           {| Pydantic.loc := [Pydantic.Key "quantity"];
              Pydantic.etype := Pydantic.missing |}).
  - reflexivity.
  - reflexivity.
  - simpl. now left.
Defined.

(** X6.  Every validation error the three creating routes report for
    an object body is located at a field the request model declares:
    keys the model does not know never cause an error. *)
Theorem errors_name_declared_fields :
  forall (P : platform) (d : dict) (e : Pydantic.error),
    (In e (Pydantic.errors (Main.CreateCustomer.validate (VDict d))) ->
     exists k tl, In k ["name"; "email"; "phone"] /\
                  Pydantic.loc e = Pydantic.Key k :: tl) /\
    (In e (Pydantic.errors (Main.CreateProduct.validate P (VDict d))) ->
     exists k tl, In k ["sku"; "name"; "price"] /\
                  Pydantic.loc e = Pydantic.Key k :: tl) /\
    (In e (Pydantic.errors (Main.CreateInvoice.validate P (VDict d))) ->
     exists k tl, In k ["customer_id"; "items"; "currency"] /\
                  Pydantic.loc e = Pydantic.Key k :: tl).
Proof.
  intros P d e. split; [|split]; intros H.
  - unfold Main.CreateCustomer.validate, Pydantic.model,
      Main.CreateCustomer.fields in H.
    rewrite !errors_ap, !in_app_iff in H.
    destruct H as [[[[]|H]|H]|H];
      [apply errors_required_loc in H
      |apply errors_with_default_loc in H
      |apply errors_with_default_loc in H];
      destruct H as (tl & H); eexists; exists tl;
      (split; [|exact H]); simpl; tauto.
  - unfold Main.CreateProduct.validate, Pydantic.model,
      Main.CreateProduct.fields in H.
    rewrite !errors_ap, !in_app_iff in H.
    destruct H as [[[[]|H]|H]|H];
      apply errors_required_loc in H;
      destruct H as (tl & H); eexists; exists tl;
      (split; [|exact H]); simpl; tauto.
  - unfold Main.CreateInvoice.validate, Pydantic.model,
      Main.CreateInvoice.fields in H.
    rewrite !errors_ap, !in_app_iff in H.
    destruct H as [[[[]|H]|H]|H];
      [apply errors_required_loc in H
      |apply errors_required_loc in H
      |apply errors_with_default_loc in H];
      destruct H as (tl & H); eexists; exists tl;
      (split; [|exact H]); simpl; tauto.
Qed.

Lemma errors_name_declared_fields_witness :
  exists k tl,
    In k ["sku"; "name"; "price"] /\
    Pydantic.loc {| Pydantic.loc := [Pydantic.Key "price"];
                    Pydantic.etype := Pydantic.float_type |}
    = Pydantic.Key k :: tl.
Proof.
  apply (errors_name_declared_fields cpython_3_11
           [("sku", VStr "W-1"); ("name", VStr "Widget");
            ("price", VStr "cheap"); ("colour", VInt 3)]).
  simpl. now left.
Defined.

(** ** What reaches the store and what comes back *)

Lemma handlers_store_once (P : platform) (now : datetime) (s : store P) :
  (forall m, Main.create_customer P now m s
             = store_and_return P "customer" (customer_document now m) s) /\
  (forall m, Main.create_product P now m s
             = store_and_return P "product" (product_document now m) s) /\
  (forall m, Main.create_invoice P now m s
             = store_and_return P "invoice" (invoice_document P now m) s).
Proof.
  split; [|split]; intros m.
  - reflexivity.
  - reflexivity.
  - unfold Main.create_invoice.
    rewrite (invoice_total_of_items P _ (Main.CreateInvoice.items m))
      by reflexivity.
    reflexivity.
Qed.

Lemma route_store_and_return (P : platform) {A}
    (validate : Pydantic.validator A)
    (handler : A -> store P -> Py.result dict * store P)
    (collection : string) (document : A -> dict) (body : value) (s : store P) :
  (forall m, handler m s = store_and_return P collection (document m) s) ->
  Main.route P validate handler body s
  = match validate body with
    | Pydantic.Invalid errs => (Main.R422 errs, s)
    | Pydantic.Valid m =>
        match create_document P collection (document m) s with
        | (Py.Ok oid, s') =>
            if Py.json_compliant (VDict (document m))
            then (Main.R200 (("id", VStr oid) :: document m), s')
            else (Main.R500 Py.ValueError, s')
        | (Py.Raise e, s') => (Main.R500 e, s')
        end
    end.
Proof.
  intros H. unfold Main.route.
  destruct (validate body) as [m|errs]; [|reflexivity].
  rewrite H. unfold store_and_return.
  destruct (create_document P _ _ s) as [[oid|e] s']; reflexivity.
Qed.

Lemma json_compliant_dict (entries : dict) :
  Py.json_compliant (VDict entries)
  = forallb (fun kv => Py.json_compliant (snd kv)) entries.
Proof. reflexivity. Qed.

Lemma json_compliant_list (items : list value) :
  Py.json_compliant (VList items) = forallb Py.json_compliant items.
Proof. reflexivity. Qed.

Lemma customer_document_renders (now : datetime) (m : Main.CreateCustomer.t) :
  Py.json_compliant (VDict (customer_document now m)) = true.
Proof. destruct m as [name [e|] [p|]]; reflexivity. Qed.

Lemma product_document_renders (now : datetime) (m : Main.CreateProduct.t) :
  Py.json_compliant (VDict (product_document now m))
  = Float.is_finite (Main.CreateProduct.price m).
Proof.
  destruct m as [sku name price]. rewrite json_compliant_dict.
  cbn [product_document forallb snd Py.json_compliant
       Main.CreateProduct.price andb].
  now rewrite andb_true_r.
Qed.

Lemma dump_items_render (items : list Main.InvoiceItem.t) :
  Py.json_compliant (dump_items items) = forallb finite_item items.
Proof.
  unfold dump_items. rewrite json_compliant_list.
  induction items as [|i items IH]; [reflexivity|].
  cbn [map forallb]. rewrite IH. f_equal.
  destruct i as [pid name q p t]. rewrite json_compliant_dict.
  unfold finite_item.
  cbn [Main.InvoiceItem.model_dump forallb snd Py.json_compliant
       Main.InvoiceItem.quantity Main.InvoiceItem.price
       Main.InvoiceItem.tax_rate Main.InvoiceItem.product_id
       Main.InvoiceItem.name andb].
  now rewrite andb_true_r, andb_assoc.
Qed.

Lemma invoice_document_renders (P : platform) (now : datetime)
    (m : Main.CreateInvoice.t) :
  Py.json_compliant (VDict (invoice_document P now m)) = finite_invoice P m.
Proof.
  rewrite json_compliant_dict. unfold invoice_document, finite_invoice.
  cbn [forallb snd andb]. rewrite dump_items_render.
  cbn [Py.json_compliant andb]. now rewrite andb_true_r.
Qed.

Lemma post_invoices_unfold (P : platform) (now : datetime) (body : value)
    (s : store P) :
  Main.post_invoices P now body s
  = match Main.CreateInvoice.validate P body with
    | Pydantic.Invalid errs => (Main.R422 errs, s)
    | Pydantic.Valid m =>
        match create_document P "invoice" (invoice_document P now m) s with
        | (Py.Ok oid, s') =>
            if finite_invoice P m
            then (Main.R200 (("id", VStr oid) :: invoice_document P now m), s')
            else (Main.R500 Py.ValueError, s')
        | (Py.Raise e, s') => (Main.R500 e, s')
        end
    end.
Proof.
  unfold Main.post_invoices.
  rewrite (route_store_and_return P _ _ "invoice" (invoice_document P now));
    [|apply handlers_store_once].
  destruct (Main.CreateInvoice.validate P body) as [m|errs]; [|reflexivity].
  now rewrite invoice_document_renders.
Qed.

(** X7.  The answer of each creating route in full.  A body that fails
    validation gets its validation errors and the store is untouched.
    Otherwise the handler calls [create_document] exactly once, with the
    collection of the route and the dumped model extended by the server
    fields; computing the total of an invoice never raises.  When the
    store raises, its exception is the answer.  When it returns, the
    document has been stored, and only then is the answer rendered: a
    customer always comes back, with the identifier in front; a product
    comes back when its price is finite and an invoice when every
    quantity, price and tax rate and the total are finite; otherwise
    the answer is a server error although the document was stored. *)
Theorem creating_routes_outcome (P : platform) (now : datetime) (body : value)
    (s : store P) :
  Main.post_customers P now body s
  = match Main.CreateCustomer.validate body with
    | Pydantic.Invalid errs => (Main.R422 errs, s)
    | Pydantic.Valid m =>
        match create_document P "customer" (customer_document now m) s with
        | (Py.Ok oid, s') =>
            (Main.R200 (("id", VStr oid) :: customer_document now m), s')
        | (Py.Raise e, s') => (Main.R500 e, s')
        end
    end /\
  Main.post_products P now body s
  = match Main.CreateProduct.validate P body with
    | Pydantic.Invalid errs => (Main.R422 errs, s)
    | Pydantic.Valid m =>
        match create_document P "product" (product_document now m) s with
        | (Py.Ok oid, s') =>
            if Float.is_finite (Main.CreateProduct.price m)
            then (Main.R200 (("id", VStr oid) :: product_document now m), s')
            else (Main.R500 Py.ValueError, s')
        | (Py.Raise e, s') => (Main.R500 e, s')
        end
    end /\
  Main.post_invoices P now body s
  = match Main.CreateInvoice.validate P body with
    | Pydantic.Invalid errs => (Main.R422 errs, s)
    | Pydantic.Valid m =>
        match create_document P "invoice" (invoice_document P now m) s with
        | (Py.Ok oid, s') =>
            if forallb finite_item (Main.CreateInvoice.items m)
               && Py.json_compliant
                    (total_value P (Main.CreateInvoice.items m))
            then (Main.R200 (("id", VStr oid) :: invoice_document P now m), s')
            else (Main.R500 Py.ValueError, s')
        | (Py.Raise e, s') => (Main.R500 e, s')
        end
    end.
Proof.
  split; [|split].
  - unfold Main.post_customers.
    rewrite (route_store_and_return P _ _ "customer" (customer_document now));
      [|apply handlers_store_once].
    destruct (Main.CreateCustomer.validate body) as [m|errs]; [|reflexivity].
    now rewrite customer_document_renders.
  - unfold Main.post_products.
    rewrite (route_store_and_return P _ _ "product" (product_document now));
      [|apply handlers_store_once].
    destruct (Main.CreateProduct.validate P body) as [m|errs]; [|reflexivity].
    now rewrite product_document_renders.
  - apply post_invoices_unfold.
Qed.

(** ** Keys the models do not declare *)

Lemma validate_item_set_other (P : platform) (k : string) (v item : value) :
  ~ In k ["product_id"; "name"; "quantity"; "price"; "tax_rate"] ->
  Main.InvoiceItem.validate P (set_in_item k v item)
  = Main.InvoiceItem.validate P item.
Proof.
  intros H. simpl in H.
  destruct item as [| | | | | |items|d]; try reflexivity.
  unfold set_in_item, Main.InvoiceItem.validate, Pydantic.model,
    Main.InvoiceItem.fields.
  rewrite !required_set_other, with_default_set_other; intuition.
Qed.

Lemma validate_map_items (P : platform) (g : value -> value) (body : value) :
  (forall v, Main.InvoiceItem.validate P (g v) = Main.InvoiceItem.validate P v) ->
  Main.CreateInvoice.validate P (map_items g body)
  = Main.CreateInvoice.validate P body.
Proof.
  intros Hg.
  destruct body as [| | | | | |items|d]; try reflexivity.
  unfold map_items.
  destruct (Dict.get "items" d) as [[| | | | | |its|d']|] eqn:E;
    try reflexivity.
  unfold Main.CreateInvoice.validate, Pydantic.model,
    Main.CreateInvoice.fields.
  rewrite required_set_other, with_default_set_other by discriminate.
  do 2 f_equal.
  unfold Pydantic.required. rewrite get_set_same, E.
  unfold Pydantic.list_of.
  now rewrite (list_items_ext _ _ Hg).
Qed.

(** X8.  Keys that a request model does not declare have no effect:
    setting such a key in the body of [POST /customers] or
    [POST /products], or in every line of the body of [POST /invoices],
    changes neither the answer nor what is stored. *)
Theorem undeclared_keys_are_ignored :
  forall (P : platform) (now : datetime) (k : string) (v : value)
         (s : store P),
    (forall d, ~ In k ["name"; "email"; "phone"] ->
               Main.post_customers P now (VDict (Dict.set k v d)) s
               = Main.post_customers P now (VDict d) s) /\
    (forall d, ~ In k ["sku"; "name"; "price"] ->
               Main.post_products P now (VDict (Dict.set k v d)) s
               = Main.post_products P now (VDict d) s) /\
    (forall body,
        ~ In k ["product_id"; "name"; "quantity"; "price"; "tax_rate"] ->
        Main.post_invoices P now (map_items (set_in_item k v) body) s
        = Main.post_invoices P now body s).
Proof.
  intros P now k v s. split; [|split].
  - intros d H. simpl in H.
    unfold Main.post_customers, Main.route, Main.CreateCustomer.validate,
      Pydantic.model, Main.CreateCustomer.fields.
    rewrite required_set_other, !with_default_set_other; intuition.
  - intros d H. simpl in H.
    unfold Main.post_products, Main.route, Main.CreateProduct.validate,
      Pydantic.model, Main.CreateProduct.fields.
    rewrite !required_set_other; intuition.
  - intros body H. unfold Main.post_invoices, Main.route.
    rewrite validate_map_items; [reflexivity|].
    intros item. now apply validate_item_set_other.
Qed.

Lemma undeclared_keys_are_ignored_witness :
  Main.post_customers cpython_3_11 1700%Z
    (VDict (Dict.set "is_admin" (VBool true) [("name", VStr "Ann")])) []
  = Main.post_customers cpython_3_11 1700%Z (VDict [("name", VStr "Ann")]) [] /\
  Main.post_invoices cpython_3_11 1700%Z
    (map_items (set_in_item "discount" (VInt 50)) widget_invoice) []
  = Main.post_invoices cpython_3_11 1700%Z widget_invoice [].
Proof.
  destruct (undeclared_keys_are_ignored cpython_3_11 1700%Z
              "is_admin" (VBool true) []) as (Hc & _ & _).
  destruct (undeclared_keys_are_ignored cpython_3_11 1700%Z
              "discount" (VInt 50) []) as (_ & _ & Hi).
  split.
  - apply Hc. simpl. intros [H|[H|[H|[]]]]; discriminate H.
  - apply Hi. simpl. intros [H|[H|[H|[H|[H|[]]]]]]; discriminate H.
Defined.

(** ** Dumping and validating again *)

Lemma item_round_trip (P : platform) (i : Main.InvoiceItem.t) :
  Main.InvoiceItem.validate P (VDict (Main.InvoiceItem.model_dump i))
  = Pydantic.Valid i.
Proof. destruct i. reflexivity. Qed.

Lemma list_items_round_trip (P : platform) (items : list Main.InvoiceItem.t) :
  forall n,
    Pydantic.list_items (Main.InvoiceItem.validate P) n
      (map (fun i => VDict (Main.InvoiceItem.model_dump i)) items)
    = Pydantic.Valid items.
Proof.
  induction items as [|i items IH]; intros n; [reflexivity|].
  cbn [map Pydantic.list_items]. rewrite item_round_trip, IH. reflexivity.
Qed.

(** X9.  Validation undoes [model_dump]: the dump of a request model
    validates to that same model, and so does the document built from
    it for the store, whose server fields ("status", "created_at",
    "total") are ignored.  A returned invoice sent in again as a body
    is therefore treated exactly like the body it came from. *)
Theorem dump_then_validate :
  (forall m : Main.CreateCustomer.t,
      Main.CreateCustomer.validate (VDict (Main.CreateCustomer.model_dump m))
      = Pydantic.Valid m) /\
  (forall (P : platform) (m : Main.CreateProduct.t),
      Main.CreateProduct.validate P (VDict (Main.CreateProduct.model_dump m))
      = Pydantic.Valid m) /\
  (forall (P : platform) (m : Main.CreateInvoice.t),
      Main.CreateInvoice.validate P (VDict (Main.CreateInvoice.model_dump m))
      = Pydantic.Valid m) /\
  (forall (P : platform) (now now' : datetime) (body : value)
          (s s' s2 : store P) (doc : dict),
      Main.post_invoices P now body s = (Main.R200 doc, s') ->
      Main.post_invoices P now' (VDict doc) s2
      = Main.post_invoices P now' body s2).
Proof.
  split; [|split; [|split]].
  - intros [name [e|] [p|]]; reflexivity.
  - intros P [sku name price]. reflexivity.
  - intros P [cid items cur].
    unfold Main.CreateInvoice.validate, Pydantic.model,
      Main.CreateInvoice.fields, Main.CreateInvoice.model_dump.
    cbn [Main.CreateInvoice.customer_id Main.CreateInvoice.items
         Main.CreateInvoice.currency].
    unfold Pydantic.required, Pydantic.with_default. simpl Dict.get.
    unfold Pydantic.list_of. rewrite list_items_round_trip. reflexivity.
  - intros P now now' body s s' s2 doc H.
    rewrite post_invoices_unfold in H.
    destruct (Main.CreateInvoice.validate P body) as [m|errs] eqn:Hv;
      [|discriminate H].
    destruct (create_document P _ _ s) as [[oid|e] s0]; [|discriminate H].
    destruct (finite_invoice P m); [|discriminate H].
    injection H as <- <-.
    unfold Main.post_invoices, Main.route. rewrite Hv.
    replace (Main.CreateInvoice.validate P
               (VDict (("id", VStr oid) :: invoice_document P now m)))
      with (Pydantic.Valid m); [reflexivity|].
    destruct m as [cid items cur].
    unfold Main.CreateInvoice.validate, Pydantic.model,
      Main.CreateInvoice.fields, invoice_document, dump_items.
    cbn [Main.CreateInvoice.customer_id Main.CreateInvoice.items
         Main.CreateInvoice.currency].
    unfold Pydantic.required, Pydantic.with_default. simpl Dict.get.
    unfold Pydantic.list_of. rewrite list_items_round_trip. reflexivity.
Qed.

Lemma dump_then_validate_witness :
  Main.post_invoices cpython_3_12 2900%Z
    (VDict (response_doc (fst widget_run))) []
  = Main.post_invoices cpython_3_12 2900%Z widget_invoice [].
Proof.
  destruct dump_then_validate as (_ & _ & _ & Hagain).
  apply (Hagain cpython_3_12 1700%Z 2900%Z widget_invoice []
           (snd widget_run) []).
  vm_compute. reflexivity.
Defined.

(** ** Invariants of the schema models *)

Lemma check_valid {A} (ok : A -> bool) (e : Pydantic.error_type)
    (f : Pydantic.validator A) (v : value) (a : A) :
  Pydantic.check ok e f v = Pydantic.Valid a ->
  f v = Pydantic.Valid a /\ ok a = true.
Proof.
  unfold Pydantic.check. destruct (f v) as [a0|errs]; [|discriminate].
  destruct (ok a0) eqn:E; intros H; [|discriminate H].
  injection H as <-. now split.
Qed.

(** X10.  The quantity of an accepted [InvoiceItem] or [QuotationItem]
    of the schema registry is above zero and its price is not below
    zero; neither is a NaN.  The [tax_rate] and the [discount] carry no
    such bound. *)
Theorem schema_items_are_positive :
  (forall (P : platform) (v : value) (i : Schemas.InvoiceItem.t),
      Schemas.InvoiceItem.validate P v = Pydantic.Valid i ->
      Float.ltb Float.zero (Schemas.InvoiceItem.quantity i) = true /\
      Float.leb Float.zero (Schemas.InvoiceItem.price i) = true) /\
  (forall (P : platform) (v : value) (i : Entities.QuotationItem.t),
      Entities.QuotationItem.validate P v = Pydantic.Valid i ->
      Float.ltb Float.zero (Entities.QuotationItem.quantity i) = true /\
      Float.leb Float.zero (Entities.QuotationItem.price i) = true) /\
  (forall (P : platform) (x : float),
      exists i,
        Schemas.InvoiceItem.validate P
          (VDict [("product_id", VStr "P1"); ("name", VStr "Widget");
                  ("quantity", VInt 1); ("price", VInt 1);
                  ("tax_rate", VFloat x)])
        = Pydantic.Valid i /\ Schemas.InvoiceItem.tax_rate i = x).
Proof.
  split; [|split].
  - intros P v i H. destruct v as [| | | | | |items|d]; try discriminate H.
    unfold Schemas.InvoiceItem.validate, Pydantic.model,
      Schemas.InvoiceItem.fields in H.
    valid_fields H. simpl.
    apply required_valid in Hfield1 as (vq & _ & Hq).
    apply required_valid in Hfield0 as (vp & _ & Hp).
    apply check_valid in Hq as [_ Hq]. apply check_valid in Hp as [_ Hp].
    now split.
  - intros P v i H. destruct v as [| | | | | |items|d]; try discriminate H.
    unfold Entities.QuotationItem.validate, Pydantic.model,
      Entities.QuotationItem.fields in H.
    valid_fields H. simpl.
    apply required_valid in Hfield1 as (vq & _ & Hq).
    apply required_valid in Hfield0 as (vp & _ & Hp).
    apply check_valid in Hq as [_ Hq]. apply check_valid in Hp as [_ Hp].
    now split.
  - intros P x. eexists. split; reflexivity.
Qed.

Lemma schema_items_are_positive_witness :
  Float.ltb Float.zero (Float.of_Z 2) = true /\
  Float.leb Float.zero (Float.of_Z 100) = true.
Proof.
  destruct schema_items_are_positive as (Hitem & _ & _).
  apply (Hitem cpython_3_11
           (VDict [("product_id", VStr "P1"); ("name", VStr "Widget");
                   ("quantity", VInt 2); ("price", VInt 100)])
           {| Schemas.InvoiceItem.product_id := "P1";
              Schemas.InvoiceItem.name := "Widget";
              Schemas.InvoiceItem.quantity := Float.of_Z 2;
              Schemas.InvoiceItem.price := Float.of_Z 100;
              Schemas.InvoiceItem.tax_rate := Float.of_decimal 11 2 |}).
  reflexivity.
Defined.

(** X11.  The rating of an accepted [Supplier] is either absent or a
    float between 0 and 5, both included; it is absent exactly when the
    payload has no rating or a null one. *)
Theorem supplier_rating_invariant :
  forall (P : platform) (d : dict) (m : Schemas.Supplier.t),
    Schemas.Supplier.validate P (VDict d) = Pydantic.Valid m ->
    match Schemas.Supplier.rating m with
    | Some r =>
        Float.leb Float.zero r = true /\ Float.leb r (Float.of_Z 5) = true /\
        exists v, Dict.get "rating" d = Some v /\ v <> VNone /\
                  Pydantic.coerce_float P v = Some r
    | None => Dict.get "rating" d = None \/ Dict.get "rating" d = Some VNone
    end.
Proof.
  intros P d m H.
  unfold Schemas.Supplier.validate, Pydantic.model, Schemas.Supplier.fields in H.
  valid_fields H. simpl.
  apply with_default_valid in Hfield.
  destruct (Dict.get "rating" d) as [v|]; [|subst; now left].
  unfold Pydantic.optional in Hfield.
  destruct v;
    try (injection Hfield as <-; now right);
    (destruct (Pydantic.ge _ _ _) as [r|errs] eqn:E; [|discriminate Hfield];
     injection Hfield as <-;
     apply check_valid in E as [E Hge];
     apply check_valid in E as [E Hle];
     apply float_valid in E;
     repeat split; auto; eexists; repeat split; eauto; discriminate).
Qed.

Lemma supplier_rating_invariant_witness :
  Float.leb Float.zero (Float.of_decimal 45 1) = true /\
  Float.leb (Float.of_decimal 45 1) (Float.of_Z 5) = true /\
  exists v,
    Dict.get "rating" [("name", VStr "Acme");
                       ("rating", VFloat (Float.of_decimal 45 1))] = Some v /\
    v <> VNone /\
    Pydantic.coerce_float cpython_3_11 v = Some (Float.of_decimal 45 1).
Proof.
  apply (supplier_rating_invariant cpython_3_11
           [("name", VStr "Acme"); ("rating", VFloat (Float.of_decimal 45 1))]
           {| Schemas.Supplier.name := "Acme";
              Schemas.Supplier.email := None;
              Schemas.Supplier.phone := None;
              Schemas.Supplier.address := None;
              Schemas.Supplier.rating := Some (Float.of_decimal 45 1) |}).
  reflexivity.
Defined.

(** ** Enumerated fields *)

Lemma existsb_eqb_in (s : string) (allowed : list string) :
  existsb (String.eqb s) allowed = true <-> In s allowed.
Proof.
  rewrite existsb_exists. split.
  - intros (x & Hin & Heq). apply String.eqb_eq in Heq. now subst.
  - intros H. exists s. split; [assumption|apply String.eqb_refl].
Qed.

Lemma literal_valid (allowed : list string) (v : value) (s : string) :
  Pydantic.literal allowed v = Pydantic.Valid s ->
  v = VStr s /\ In s allowed.
Proof.
  destruct v; simpl; try discriminate.
  destruct (existsb (String.eqb s0) allowed) eqn:E; [|discriminate].
  intros H. injection H as <-. split; [reflexivity|].
  now apply existsb_eqb_in.
Qed.

Lemma literal_invalid (allowed : list string) (v : value) :
  (forall s, v = VStr s -> ~ In s allowed) ->
  Pydantic.literal allowed v = Pydantic.fail Pydantic.literal_error.
Proof.
  intros H. destruct v; try reflexivity. simpl.
  destruct (existsb (String.eqb s) allowed) eqn:E; [|reflexivity].
  apply existsb_eqb_in in E. now apply H in E.
Qed.

Lemma with_default_literal (k : string) (allowed : list string)
    (dflt : string) (d : dict) (s : string) :
  Pydantic.with_default k (Pydantic.literal allowed) dflt d = Pydantic.Valid s ->
  match Dict.get k d with
  | Some v => v = VStr s /\ In s allowed
  | None => s = dflt
  end.
Proof.
  intros H. apply with_default_valid in H.
  destruct (Dict.get k d); [now apply literal_valid|assumption].
Qed.

Lemma with_default_literal_error (k : string) (allowed : list string)
    (dflt : string) (d : dict) (v : value) :
  Dict.get k d = Some v ->
  (forall s, v = VStr s -> ~ In s allowed) ->
  In {| Pydantic.loc := [Pydantic.Key k];
        Pydantic.etype := Pydantic.literal_error |}
     (Pydantic.errors (Pydantic.with_default k (Pydantic.literal allowed) dflt d)).
Proof.
  intros Hget Hout. unfold Pydantic.with_default. rewrite Hget.
  rewrite (literal_invalid _ _ Hout). simpl. now left.
Qed.

(** X12.  The status of an accepted [PurchaseOrder] is one of the five
    words the model lists; it is the word the payload gave, unchanged,
    or "draft" when the payload has no status.  A status that is not a
    listed word, whatever its type, is reported as a [literal_error] at
    "status". *)
Theorem purchase_order_status :
  forall (P : platform) (d : dict),
    (forall m, Entities.PurchaseOrder.validate P (VDict d) = Pydantic.Valid m ->
               In (Entities.PurchaseOrder.status m)
                  ["draft"; "approved"; "ordered"; "received"; "cancelled"] /\
               match Dict.get "status" d with
               | Some v => v = VStr (Entities.PurchaseOrder.status m)
               | None => Entities.PurchaseOrder.status m = "draft"
               end) /\
    (forall v,
        Dict.get "status" d = Some v ->
        (forall s, v = VStr s -> ~ In s Entities.PurchaseOrder.statuses) ->
        exists errs,
          Entities.PurchaseOrder.validate P (VDict d) = Pydantic.Invalid errs /\
          In {| Pydantic.loc := [Pydantic.Key "status"];
                Pydantic.etype := Pydantic.literal_error |} errs).
Proof.
  intros P d. split.
  - intros m H.
    unfold Entities.PurchaseOrder.validate, Pydantic.model,
      Entities.PurchaseOrder.fields in H.
    valid_fields H. simpl.
    apply with_default_literal in Hfield1.
    destruct (Dict.get "status" d).
    + destruct Hfield1 as [-> Hin]. now split.
    + subst. split; [simpl; tauto|reflexivity].
  - intros v Hget Hout. apply invalid_of_error.
    unfold Entities.PurchaseOrder.validate, Pydantic.model,
      Entities.PurchaseOrder.fields.
    rewrite !errors_ap, !in_app_iff.
    pose proof (with_default_literal_error "status" _ "draft" d v Hget Hout).
    tauto.
Qed.

Lemma purchase_order_status_witness :
  exists errs,
    Entities.PurchaseOrder.validate cpython_3_11 (VDict shipped_order)
    = Pydantic.Invalid errs /\
    In {| Pydantic.loc := [Pydantic.Key "status"];
          Pydantic.etype := Pydantic.literal_error |} errs.
Proof.
  destruct (purchase_order_status cpython_3_11 shipped_order) as (_ & Hout).
  apply (Hout (VStr "shipped")).
  - reflexivity.
  - intros s H. injection H as <-. simpl.
    intros [H|[H|[H|[H|[H|[]]]]]]; discriminate H.
Defined.

(** X13.  [Role.name] and [GLAccount.type] are required and
    enumerated: an accepted record holds one of the listed words, the
    very string the payload gave; a payload without the field gets a
    [missing] error there, and one with anything else a
    [literal_error]. *)
Theorem required_vocabularies :
  (forall d : dict,
      (forall m, Schemas.Role.validate (VDict d) = Pydantic.Valid m ->
                 In (Schemas.Role.name m)
                    ["owner"; "admin"; "manager"; "sales"; "warehouse";
                     "procurement"; "finance"; "hr"; "employee"] /\
                 Dict.get "name" d = Some (VStr (Schemas.Role.name m))) /\
      (Dict.get "name" d = None ->
       In {| Pydantic.loc := [Pydantic.Key "name"];
             Pydantic.etype := Pydantic.missing |}
          (Pydantic.errors (Schemas.Role.validate (VDict d)))) /\
      (forall v,
          Dict.get "name" d = Some v ->
          (forall s, v = VStr s -> ~ In s Schemas.Role.names) ->
          In {| Pydantic.loc := [Pydantic.Key "name"];
                Pydantic.etype := Pydantic.literal_error |}
             (Pydantic.errors (Schemas.Role.validate (VDict d))))) /\
  (forall d : dict,
      (forall m, Entities.GLAccount.validate (VDict d) = Pydantic.Valid m ->
                 In (Entities.GLAccount.type m)
                    ["asset"; "liability"; "equity"; "income"; "expense"] /\
                 Dict.get "type" d = Some (VStr (Entities.GLAccount.type m))) /\
      (Dict.get "type" d = None ->
       In {| Pydantic.loc := [Pydantic.Key "type"];
             Pydantic.etype := Pydantic.missing |}
          (Pydantic.errors (Entities.GLAccount.validate (VDict d)))) /\
      (forall v,
          Dict.get "type" d = Some v ->
          (forall s, v = VStr s -> ~ In s Entities.GLAccount.types) ->
          In {| Pydantic.loc := [Pydantic.Key "type"];
                Pydantic.etype := Pydantic.literal_error |}
             (Pydantic.errors (Entities.GLAccount.validate (VDict d))))).
Proof.
  assert (Hlit : forall k allowed d v,
             Dict.get k d = Some v ->
             (forall s, v = VStr s -> ~ In s allowed) ->
             In {| Pydantic.loc := [Pydantic.Key k];
                   Pydantic.etype := Pydantic.literal_error |}
                (Pydantic.errors
                   (Pydantic.required k (Pydantic.literal allowed) d))).
  { intros k allowed d v Hget Hout. unfold Pydantic.required. rewrite Hget.
    rewrite (literal_invalid _ _ Hout). simpl. now left. }
  split.
  - intros d. split; [|split].
    + intros m H.
      unfold Schemas.Role.validate, Pydantic.model, Schemas.Role.fields in H.
      valid_fields H. simpl.
      apply required_valid in Hfield0 as (v & Hget & Hv).
      apply literal_valid in Hv as [-> Hin]. now split.
    + intros Hget.
      unfold Schemas.Role.validate, Pydantic.model, Schemas.Role.fields.
      rewrite !errors_ap, !in_app_iff.
      pose proof (errors_required_missing "name"
                    (Pydantic.literal Schemas.Role.names) d Hget). tauto.
    + intros v Hget Hout.
      unfold Schemas.Role.validate, Pydantic.model, Schemas.Role.fields.
      rewrite !errors_ap, !in_app_iff.
      pose proof (Hlit "name" _ d v Hget Hout). tauto.
  - intros d. split; [|split].
    + intros m H.
      unfold Entities.GLAccount.validate, Pydantic.model,
        Entities.GLAccount.fields in H.
      valid_fields H. simpl.
      apply required_valid in Hfield as (v & Hget & Hv).
      apply literal_valid in Hv as [-> Hin]. now split.
    + intros Hget.
      unfold Entities.GLAccount.validate, Pydantic.model,
        Entities.GLAccount.fields.
      rewrite !errors_ap, !in_app_iff.
      pose proof (errors_required_missing "type"
                    (Pydantic.literal Entities.GLAccount.types) d Hget). tauto.
    + intros v Hget Hout.
      unfold Entities.GLAccount.validate, Pydantic.model,
        Entities.GLAccount.fields.
      rewrite !errors_ap, !in_app_iff.
      pose proof (Hlit "type" _ d v Hget Hout). tauto.
Qed.

Lemma required_vocabularies_witness :
  In {| Pydantic.loc := [Pydantic.Key "name"];
        Pydantic.etype := Pydantic.literal_error |}
     (Pydantic.errors (Schemas.Role.validate (VDict [("name", VStr "Admin")]))) /\
  In {| Pydantic.loc := [Pydantic.Key "type"];
        Pydantic.etype := Pydantic.missing |}
     (Pydantic.errors
        (Entities.GLAccount.validate
           (VDict [("code", VStr "1000"); ("name", VStr "Cash")]))).
Proof.
  destruct required_vocabularies as (Hrole & Haccount).
  split.
  - destruct (Hrole [("name", VStr "Admin")]) as (_ & _ & Hout).
    apply (Hout (VStr "Admin")); [reflexivity|].
    intros s H. injection H as <-. simpl.
    intros [H|[H|[H|[H|[H|[H|[H|[H|[H|[]]]]]]]]]]; discriminate H.
  - destruct (Haccount [("code", VStr "1000"); ("name", VStr "Cash")])
      as (_ & Hmissing & _).
    apply Hmissing. reflexivity.
Defined.

(** X14.  [Organization.country] is optional with the default "ID":
    the default is taken only when the payload has no "country" at all.
    An explicit null is kept as null, and a given string is kept as it
    is; the currency is "IDR" unless the payload gives one. *)
Theorem organization_country_default :
  forall (d : dict) (m : Entities.Organization.t),
    Entities.Organization.validate (VDict d) = Pydantic.Valid m ->
    match Dict.get "country" d with
    | None => Entities.Organization.country m = Some "ID"
    | Some VNone => Entities.Organization.country m = None
    | Some v => exists c, v = VStr c /\
                          Entities.Organization.country m = Some c
    end /\
    match Dict.get "currency" d with
    | None => Entities.Organization.currency m = "IDR"
    | Some v => v = VStr (Entities.Organization.currency m)
    end.
Proof.
  intros d m H.
  unfold Entities.Organization.validate, Pydantic.model,
    Entities.Organization.fields in H.
  valid_fields H. simpl.
  apply with_default_valid in Hfield0, Hfield.
  split.
  - destruct (Dict.get "country" d) as [v|]; [|assumption].
    destruct v; simpl in Hfield0; try discriminate Hfield0;
      injection Hfield0 as <-; eauto.
  - destruct (Dict.get "currency" d) as [v|]; [|assumption].
    now apply str_valid in Hfield.
Qed.

Lemma organization_country_default_witness :
  Entities.Organization.country
    {| Entities.Organization.name := "Linqkeun";
       Entities.Organization.country := None;
       Entities.Organization.currency := "IDR" |} = None /\
  Entities.Organization.currency
    {| Entities.Organization.name := "Linqkeun";
       Entities.Organization.country := None;
       Entities.Organization.currency := "IDR" |} = "IDR".
Proof.
  apply (organization_country_default
           [("name", VStr "Linqkeun"); ("country", VNone)]).
  reflexivity.
Defined.

(** ** The diagnostic route *)

Lemma length_substring (n : nat) (s : string) :
  String.length (substring 0 n s) <= n.
Proof.
  revert s. induction n as [|n IH]; intros [|c s]; simpl; try lia.
  specialize (IH s). lia.
Qed.

Lemma prefix_substring (n : nat) (s : string) :
  String.prefix (substring 0 n s) s = true.
Proof.
  revert s. induction n as [|n IH]; intros [|c s]; simpl; try reflexivity.
  destruct (Ascii.ascii_dec c c) as [_|Hne]; [apply IH|now elim Hne].
Qed.

(** X15.  [GET /test] always answers with the same six keys, in the
    same order, and "backend" is always "Running".  Its "database_url"
    and "database_name" depend on the environment alone: each is "Set"
    when the variable is set to a non-empty text and "Not Set"
    otherwise, an empty value included.  What the handler wrote there
    while probing the database, the name of the database among it, is
    always overwritten and never shown. *)
Theorem test_database_environment :
  forall (db : option Health.database) (getenv : string -> option string),
    Dict.keys (Health.test_database db getenv)
    = ["backend"; "database"; "database_url"; "database_name";
       "connection_status"; "collections"] /\
    Dict.get "backend" (Health.test_database db getenv)
    = Some (VStr "✅ Running") /\
    Dict.get "database_url" (Health.test_database db getenv)
    = Some (VStr match getenv "DATABASE_URL" with
                 | Some (String _ _) => "✅ Set"
                 | _ => "❌ Not Set"
                 end) /\
    Dict.get "database_name" (Health.test_database db getenv)
    = Some (VStr match getenv "DATABASE_NAME" with
                 | Some (String _ _) => "✅ Set"
                 | _ => "❌ Not Set"
                 end).
Proof.
  intros db getenv.
  assert (Hflag : forall o,
             Health.set_flag (Health.truthy o)
             = VStr match o with
                    | Some (String _ _) => "✅ Set"
                    | _ => "❌ Not Set"
                    end).
  { intros [[|c s]|]; reflexivity. }
  rewrite <- !Hflag.
  destruct db as [[[|n|m] [m'|all]]|]; repeat split; reflexivity.
Qed.

(** X16.  The "collections" of [GET /test] are the first twenty names
    the database lists, never more.  They are reported only when the
    handle exists, its name can be read and the listing succeeds, and
    then "database" says "Connected & Working" and "connection_status"
    says "Connected"; in every other case the list is empty. *)
Theorem test_database_collections :
  forall (db : option Health.database) (getenv : string -> option string),
    exists names,
      Dict.get "collections" (Health.test_database db getenv)
      = Some (VList (map VStr names)) /\
      List.length names <= 20 /\
      (forall h all,
          db = Some h ->
          (forall m, Health.name h <> Health.Failing m) ->
          Health.list_collection_names h = inr all ->
          names = firstn 20 all /\
          Dict.get "database" (Health.test_database db getenv)
          = Some (VStr "✅ Connected & Working") /\
          Dict.get "connection_status" (Health.test_database db getenv)
          = Some (VStr "Connected")) /\
      (names <> [] ->
       exists h all,
         db = Some h /\ Health.list_collection_names h = inr all /\
         (forall m, Health.name h <> Health.Failing m)).
Proof.
  intros db getenv.
  assert (Hworking : forall nm all,
             (forall m, nm <> Health.Failing m) ->
             let db := Some {| Health.name := nm;
                               Health.list_collection_names := inr all |} in
             Dict.get "collections" (Health.test_database db getenv)
             = Some (VList (map VStr (firstn 20 all))) /\
             Dict.get "database" (Health.test_database db getenv)
             = Some (VStr "✅ Connected & Working") /\
             Dict.get "connection_status" (Health.test_database db getenv)
             = Some (VStr "Connected")).
  { intros [|n|m] all Hname; [| |now elim (Hname m)];
      repeat split; reflexivity. }
  assert (Hfailing : forall nm lst,
             (exists m, nm = Health.Failing m) \/ (exists m, lst = inl m) ->
             Dict.get "collections"
               (Health.test_database
                  (Some {| Health.name := nm;
                           Health.list_collection_names := lst |}) getenv)
             = Some (VList [])).
  { intros nm lst [(m & ->)|(m & ->)]; [|destruct nm]; reflexivity. }
  destruct db as [[nm lst]|].
  - destruct lst as [m'|all].
    + exists []. split; [apply Hfailing; eauto|].
      split; [simpl; lia|]. split.
      * intros h all' Hdb _ Hlist. injection Hdb as <-. discriminate Hlist.
      * intros H. now elim H.
    + destruct nm as [|n|m].
      * destruct (Hworking Health.Absent all) as (Hc & Hd & Hs);
          [discriminate|].
        exists (firstn 20 all). split; [exact Hc|].
        split; [apply firstn_le_length|]. split.
        -- intros h all' Hdb _ Hlist. injection Hdb as <-.
           injection Hlist as <-. auto.
        -- intros _. eexists. exists all.
           repeat split; try reflexivity. discriminate.
      * destruct (Hworking (Health.Present n) all) as (Hc & Hd & Hs);
          [discriminate|].
        exists (firstn 20 all). split; [exact Hc|].
        split; [apply firstn_le_length|]. split.
        -- intros h all' Hdb _ Hlist. injection Hdb as <-.
           injection Hlist as <-. auto.
        -- intros _. eexists. exists all.
           repeat split; try reflexivity. discriminate.
      * exists []. split; [apply Hfailing; eauto|].
        split; [simpl; lia|]. split.
        -- intros h all' Hdb Hname _. injection Hdb as <-.
           now elim (Hname m).
        -- intros H. now elim H.
  - exists []. split; [reflexivity|]. split; [simpl; lia|]. split.
    + intros h all Hdb. discriminate Hdb.
    + intros H. now elim H.
Qed.

Lemma test_database_collections_witness :
  exists names,
    Dict.get "collections"
      (Health.test_database (Some working_handle) empty_url_env)
    = Some (VList (map VStr names)) /\
    names = firstn 20 ["customer"; "invoice"] /\
    Dict.get "database"
      (Health.test_database (Some working_handle) empty_url_env)
    = Some (VStr "✅ Connected & Working") /\
    Dict.get "connection_status"
      (Health.test_database (Some working_handle) empty_url_env)
    = Some (VStr "Connected").
Proof.
  destruct (test_database_collections (Some working_handle) empty_url_env)
    as (names & Hget & _ & Hworking & _).
  exists names. split; [exact Hget|].
  apply (Hworking working_handle ["customer"; "invoice"]).
  - reflexivity.
  - intros m. discriminate.
  - reflexivity.
Defined.

(** X17.  When probing the database fails, "database" carries a fixed
    prefix followed by at most the first 80 characters of the text of
    the exception: "Connected but Error: " after a failed listing, with
    "connection_status" already "Connected"; "Error: " when reading the
    name of the handle failed, with "connection_status" still
    "Not Connected".  Without a handle "connection_status" is
    "Not Connected" as well. *)
Theorem test_database_failures :
  forall (db : option Health.database) (getenv : string -> option string),
    (forall h message,
        db = Some h ->
        (forall m, Health.name h <> Health.Failing m) ->
        Health.list_collection_names h = inl message ->
        exists shown,
          Dict.get "database" (Health.test_database db getenv)
          = Some (VStr (String.append "⚠️  Connected but Error: " shown)) /\
          String.length shown <= 80 /\
          String.prefix shown message = true /\
          Dict.get "connection_status" (Health.test_database db getenv)
          = Some (VStr "Connected")) /\
    (forall h message,
        db = Some h ->
        Health.name h = Health.Failing message ->
        exists shown,
          Dict.get "database" (Health.test_database db getenv)
          = Some (VStr (String.append "❌ Error: " shown)) /\
          String.length shown <= 80 /\
          String.prefix shown message = true /\
          Dict.get "connection_status" (Health.test_database db getenv)
          = Some (VStr "Not Connected")) /\
    (db = None ->
     Dict.get "database" (Health.test_database db getenv)
     = Some (VStr "⚠️  Available but not initialized") /\
     Dict.get "connection_status" (Health.test_database db getenv)
     = Some (VStr "Not Connected")).
Proof.
  intros db getenv. split; [|split].
  - intros [nm lst] message -> Hname Hlist. simpl in Hname, Hlist. subst lst.
    exists (substring 0 80 message).
    destruct nm as [|n|m]; [| |now elim (Hname m)];
      (split; [reflexivity|]);
      (split; [apply length_substring|]);
      (split; [apply prefix_substring|reflexivity]).
  - intros [nm lst] message -> Hname. simpl in Hname. subst nm.
    exists (substring 0 80 message).
    split; [reflexivity|].
    split; [apply length_substring|].
    split; [apply prefix_substring|reflexivity].
  - intros ->. split; reflexivity.
Qed.

Lemma test_database_failures_witness :
  exists shown,
    Dict.get "database" (Health.test_database (Some broken_handle) empty_url_env)
    = Some (VStr (String.append "⚠️  Connected but Error: " shown)) /\
    String.length shown <= 80 /\
    String.prefix shown "connection refused" = true /\
    Dict.get "connection_status"
      (Health.test_database (Some broken_handle) empty_url_env)
    = Some (VStr "Connected").
Proof.
  destruct (test_database_failures (Some broken_handle) empty_url_env)
    as (Hlisting & _ & _).
  apply (Hlisting broken_handle "connection refused").
  - reflexivity.
  - intros m. discriminate.
  - reflexivity.
Defined.

(** ** The list routes *)







(** ** The sign of the total *)

Lemma not_negative_cases (x : float) :
  not_negative x
  = match x with
    | S754_finite true _ _ | S754_infinity true => false
    | _ => true
    end.
Proof. destruct x as [[]|[]| |[] m e]; reflexivity. Qed.

Lemma round_aux_not_negative (m e : Z) (l : location) :
  not_negative (binary_round_aux Float.prec Float.emax false m e l) = true.
Proof.
  rewrite not_negative_cases. unfold binary_round_aux.
  destruct (shr_fexp _ _ m e l) as [mrs' e'].
  destruct (shr_fexp _ _ _ e' loc_Exact) as [mrs'' e''].
  destruct (shr_m mrs''); try reflexivity.
  destruct (Z.leb e'' _); reflexivity.
Qed.

Lemma mul_not_negative (x y : float) :
  not_negative x = true -> not_negative y = true ->
  not_negative (Float.mul x y) = true.
Proof.
  rewrite (not_negative_cases x), (not_negative_cases y).
  destruct x as [[]|[]| |[] m1 e1], y as [[]|[]| |[] m2 e2];
    intros Hx Hy; try discriminate; try reflexivity.
  apply round_aux_not_negative.
Qed.

Lemma add_not_negative (x y : float) :
  not_negative x = true -> not_negative y = true ->
  not_negative (Float.add x y) = true.
Proof.
  rewrite (not_negative_cases x), (not_negative_cases y).
  destruct x as [[]|[]| |[] m1 e1], y as [[]|[]| |[] m2 e2];
    intros Hx Hy; try discriminate; try reflexivity.
  unfold Float.add, SFadd. cbn [cond_Zopp Z.add].
  unfold binary_normalize, binary_round.
  destruct (shl_align _ _ _) as [mz ez].
  apply round_aux_not_negative.
Qed.

Lemma round2_not_negative (x : float) :
  not_negative x = true -> not_negative (Float.round2 x) = true.
Proof.
  rewrite (not_negative_cases x).
  destruct x as [[]|[]| |[] m e]; intros Hx; try discriminate;
    try reflexivity.
  unfold Float.round2.
  destruct (match e with
            | Zneg p => Float.half_even (Zpos m * 100) (2 ^ Zpos p)
            | _ => (Zpos m * 100 * 2 ^ e)%Z
            end) as [|n|n]; try reflexivity.
  unfold SFdiv.
  destruct (SFdiv_core_binary _ _ _ _ _ _) as [[mz ez] lz].
  apply round_aux_not_negative.
Qed.

Lemma sum_plain_keeps_sign (f : float) (xs : list float) :
  not_negative f = true ->
  forallb not_negative xs = true ->
  not_negative (Py.sum_plain f xs) = true.
Proof.
  unfold Py.sum_plain. revert f.
  induction xs as [|x xs IH]; intros f Hf Hxs; [exact Hf|].
  simpl in *. apply andb_prop in Hxs as [Hx Hxs].
  apply IH; [now apply add_not_negative|assumption].
Qed.

Lemma line_total_not_negative (i : Main.InvoiceItem.t) :
  not_negative_item i = true -> not_negative (Spec.line_total i) = true.
Proof.
  unfold not_negative_item, Spec.line_total. intros H.
  apply andb_prop in H as [H Ht]. apply andb_prop in H as [Hq Hp].
  apply mul_not_negative; [now apply mul_not_negative|].
  now apply add_not_negative.
Qed.

Lemma invoice_total_not_negative (P : platform)
    (items : list Main.InvoiceItem.t) :
  sum_keeps_sign P ->
  forallb not_negative_item items = true ->
  not_negative (Spec.invoice_total P items) = true.
Proof.
  intros Hsum Hitems. unfold Spec.invoice_total.
  apply round2_not_negative.
  assert (Hlines : forallb not_negative (map Spec.line_total items) = true).
  { induction items as [|i items IH]; [reflexivity|].
    simpl in *. apply andb_prop in Hitems as [Hi Hitems].
    now rewrite line_total_not_negative, IH. }
  destruct (map Spec.line_total items) as [|x xs]; [reflexivity|].
  simpl in *. apply andb_prop in Hlines as [Hx Hxs].
  apply Hsum; [|assumption].
  now apply add_not_negative.
Qed.

Lemma not_negative_lines (items : list Main.InvoiceItem.t) :
  forallb not_negative_line
    (map (fun i => VDict (Main.InvoiceItem.model_dump i)) items)
  = forallb not_negative_item items.
Proof.
  induction items as [|i items IH]; [reflexivity|].
  cbn [map forallb]. rewrite IH. f_equal.
Qed.

(** X19.  When every line of a returned invoice has a quantity, a price
    and a tax rate that are not below zero, the returned total is not
    below zero either, whatever roundings, overflows or undefined
    products occur on the way.  This holds on every interpreter whose
    float loop of [sum] keeps a run of such floats not below zero; the
    plain left to right loop does. *)
Theorem total_is_not_negative :
  (forall (P : platform) (now : datetime) (body : value) (s s' : store P)
          (doc : dict) (lines : list value),
      sum_keeps_sign P ->
      Main.post_invoices P now body s = (Main.R200 doc, s') ->
      Dict.get "items" doc = Some (VList lines) ->
      forallb not_negative_line lines = true ->
      exists total x,
        Dict.get "total" doc = Some total /\
        Py.number_value total = Some x /\
        Float.ltb x Float.zero = false) /\
  sum_keeps_sign cpython_3_11.
Proof.
  split.
  - intros P now body s s' doc lines Hsum H Hlines Hnn.
    apply route_ok in H as (payload & _ & H).
    apply create_invoice_ok in H as (inv_id & ->).
    exists (total_value P (Main.CreateInvoice.items payload)),
           (Spec.invoice_total P (Main.CreateInvoice.items payload)).
    split; [reflexivity|].
    split; [apply number_value_total|].
    simpl in Hlines. unfold dump_items in Hlines. injection Hlines as <-.
    rewrite not_negative_lines in Hnn.
    pose proof (invoice_total_not_negative P _ Hsum Hnn) as Htotal.
    unfold not_negative in Htotal.
    now destruct (Float.ltb _ Float.zero).
  - intros f xs. apply sum_plain_keeps_sign.
Qed.

Lemma total_is_not_negative_witness :
  exists total x,
    Dict.get "total"
      (response_doc
         (fst (Main.post_invoices cpython_3_11 1700%Z widget_invoice [])))
    = Some total /\
    Py.number_value total = Some x /\
    Float.ltb x Float.zero = false.
Proof.
  destruct total_is_not_negative as (Htotal & Hplain).
  apply (Htotal cpython_3_11 1700%Z widget_invoice []
           (snd (Main.post_invoices cpython_3_11 1700%Z widget_invoice []))
           (response_doc
              (fst (Main.post_invoices cpython_3_11 1700%Z widget_invoice [])))
           [VDict [("product_id", VStr "P1"); ("name", VStr "Widget");
                   ("quantity", VFloat (Float.of_Z 2));
                   ("price", VFloat (Float.of_Z 100));
                   ("tax_rate", VFloat (Float.of_decimal 11 2))]]).
  - exact Hplain.
  - vm_compute. reflexivity.
  - vm_compute. reflexivity.
  - vm_compute. reflexivity.
Defined.
